(** * Provider adapters of v0.diy: a shallow embedding and its properties

    The development follows [lib/providers]: the Ollama adapter (with its
    cloud subclass), the LM Studio and Llama adapters (two instances of one
    SSE wire shape), the v0 pass-through adapter and the provider factory.

    ECMAScript strings are sequences of UTF-16 code units; the built-ins the
    adapters call ([split], [trim], [startsWith], [TextDecoder]) are written
    out on that representation.  [JSON.parse] and the coercion of non-string
    values to strings belong to the engine and are taken as an interface. *)

From Stdlib Require Import Strings.String Strings.Ascii Strings.Byte.
From Stdlib Require Import List NArith ZArith Lia Bool.
From Stdlib Require Import DecimalString.
Import ListNotations.

Set Implicit Arguments.

(* ================================================================== *)
(** ** ECMAScript strings                                               *)
(* ================================================================== *)

Module JS.

(** A string value: its UTF-16 code units. *)
Definition jsstring : Type := list N.

(** An ASCII literal as a string value. *)
Definition js (s : string) : jsstring :=
  map N_of_ascii (list_ascii_of_string s).

(** The line feed, and the blank-line separator ["\n\n"]. *)
Definition LF : N := 10%N.
Definition NL : jsstring := [LF].
Definition NLNL : jsstring := [LF; LF].

Fixpoint jseqb (a b : jsstring) : bool :=
  match a, b with
  | [], [] => true
  | x :: a', y :: b' => (x =? y)%N && jseqb a' b'
  | _, _ => false
  end.

(** ToBoolean on a string: the empty string is the only falsy one. *)
Definition truthy_string (s : jsstring) : bool :=
  match s with [] => false | _ :: _ => true end.

(** [a || b] on strings. *)
Definition or_else (a : option jsstring) (b : jsstring) : jsstring :=
  match a with
  | Some s => if truthy_string s then s else b
  | None => b
  end.

(** WhiteSpace and LineTerminator code points, which [trim] strips. *)
Definition isWhiteSpace (c : N) : bool :=
  ((c =? 9) || (c =? 10) || (c =? 11) || (c =? 12) || (c =? 13) ||
   (c =? 32) || (c =? 160) || (c =? 5760) ||
   ((8192 <=? c) && (c <=? 8202)) ||
   (c =? 8232) || (c =? 8233) || (c =? 8239) || (c =? 8287) ||
   (c =? 12288) || (c =? 65279))%N.

Fixpoint trimStart (s : jsstring) : jsstring :=
  match s with
  | [] => []
  | c :: s' => if isWhiteSpace c then trimStart s' else s
  end.

Definition trimEnd (s : jsstring) : jsstring := rev (trimStart (rev s)).

Definition trim (s : jsstring) : jsstring := trimEnd (trimStart s).

Fixpoint startsWith (s p : jsstring) : bool :=
  match p, s with
  | [], _ => true
  | _ :: _, [] => false
  | a :: p', b :: s' => (a =? b)%N && startsWith s' p'
  end.

(** [s.substring(n)] for [n] within the string or beyond it. *)
Definition substring (n : nat) (s : jsstring) : jsstring := skipn n s.

(** [s.split(sep)] for a non-empty separator: scan from the left, cut at
    every match and resume after it.  [skip] counts the code units of a
    matched separator still to be passed over; [cur] is the piece being
    collected. *)
Fixpoint split_from (sep : jsstring) (skip : nat) (cur s : jsstring)
  : list jsstring :=
  match s with
  | [] => [cur]
  | c :: s' =>
      match skip with
      | S k => split_from sep k cur s'
      | O =>
          if startsWith s sep
          then cur :: split_from sep (length sep - 1) [] s'
          else split_from sep 0 (cur ++ [c]) s'
      end
  end.

Definition split (sep s : jsstring) : list jsstring := split_from sep 0 [] s.

(** [lines.pop()]: the last element, [undefined] on an empty array. *)
Definition pop (l : list jsstring) : option jsstring :=
  match rev l with [] => None | x :: _ => Some x end.

(** Decimal rendering of a non-negative integer, as a template literal
    prints an array index or a length. *)
Definition decimal (n : N) : jsstring :=
  js (NilZero.string_of_uint (N.to_uint n)).

End JS.
Import JS.

(* ================================================================== *)
(** ** The Content Formatter                                            *)
(* ================================================================== *)

(** A block [[blockType, text]]; a Document is a sequence of blocks. *)
Definition Block : Type := (N * jsstring)%type.
Definition Document : Type := list Block.

(** [formatContentAsMessageBinaryFormat] of the Ollama adapter. *)
Definition formatContentAsMessageBinaryFormat (content : jsstring) : Document :=
  let paragraphs :=
    filter (fun p => truthy_string (trim p)) (split NLNL content) in
  if (length paragraphs =? 0)%nat && truthy_string (trim content)
  then [(0%N, trim content)]
  else map (fun paragraph => (0%N, trim paragraph)) paragraphs.

(** [createDelta]: the whole new Document, whatever the old one was. *)
Definition createDelta (oldContent newContent : Document) : Document :=
  newContent.

(** What the specification says the formatter computes: the pieces between
    blank-line separators that are non-empty once trimmed, in order, each
    as a paragraph block. *)
Definition spec_paragraph_blocks (T : jsstring) : Document :=
  map (fun p => (0%N, trim p))
      (filter (fun p => negb (jseqb (trim p) [])) (split NLNL T)).

(* ================================================================== *)
(** ** TextDecoder: streaming UTF-8 decoding                             *)
(* ================================================================== *)

Module TextDecoder.

(** State of the UTF-8 decoder between two bytes. *)
Record Utf8 : Type := {
  code_point : N;
  bytes_seen : N;
  bytes_needed : N;
  lower_boundary : N;
  upper_boundary : N
}.

Definition utf8_initial : Utf8 :=
  {| code_point := 0; bytes_seen := 0; bytes_needed := 0;
     lower_boundary := 128; upper_boundary := 191 |}.

Inductive HandlerResult : Type :=
| Continue
| CodePoint (c : N)
| DecodeError (restored : bool).

Definition in_range (lo hi b : N) : bool := ((lo <=? b) && (b <=? hi))%N.

(** One run of the UTF-8 decoder's handler on a byte.  [DecodeError true]
    says the byte was put back on the queue. *)
Definition handler (st : Utf8) (b : N) : Utf8 * HandlerResult :=
  if (bytes_needed st =? 0)%N then
    if in_range 0 127 b then (st, CodePoint b)
    else if in_range 194 223 b then
      ({| code_point := N.land b 31; bytes_seen := bytes_seen st;
          bytes_needed := 1;
          lower_boundary := lower_boundary st;
          upper_boundary := upper_boundary st |}, Continue)
    else if in_range 224 239 b then
      ({| code_point := N.land b 15; bytes_seen := bytes_seen st;
          bytes_needed := 2;
          lower_boundary := if (b =? 224)%N then 160 else lower_boundary st;
          upper_boundary := if (b =? 237)%N then 159 else upper_boundary st |},
       Continue)
    else if in_range 240 244 b then
      ({| code_point := N.land b 7; bytes_seen := bytes_seen st;
          bytes_needed := 3;
          lower_boundary := if (b =? 240)%N then 144 else lower_boundary st;
          upper_boundary := if (b =? 244)%N then 143 else upper_boundary st |},
       Continue)
    else (st, DecodeError false)
  else if negb (in_range (lower_boundary st) (upper_boundary st) b) then
    (utf8_initial, DecodeError true)
  else
    let cp := N.lor (N.shiftl (code_point st) 6) (N.land b 63) in
    let seen := (bytes_seen st + 1)%N in
    if (seen =? bytes_needed st)%N then (utf8_initial, CodePoint cp)
    else
      ({| code_point := cp; bytes_seen := seen;
          bytes_needed := bytes_needed st;
          lower_boundary := 128; upper_boundary := 191 |}, Continue).

Definition REPLACEMENT : N := 65533.

(** Processing one byte of the queue in replacement mode: the code points
    it yields.  A restored byte is handled once more, now by a decoder that
    expects a lead byte. *)
Definition process_byte (st : Utf8) (b : N) : Utf8 * list N :=
  match handler st b with
  | (st', Continue) => (st', [])
  | (st', CodePoint c) => (st', [c])
  | (st', DecodeError false) => (st', [REPLACEMENT])
  | (st', DecodeError true) =>
      match handler st' b with
      | (st'', Continue) => (st'', [REPLACEMENT])
      | (st'', CodePoint c) => (st'', [REPLACEMENT; c])
      | (st'', DecodeError _) => (st'', [REPLACEMENT; REPLACEMENT])
      end
  end.

(** A [TextDecoder] object for UTF-8 with the default options
    ([fatal] and [ignoreBOM] false). *)
Record t : Type := {
  decoder : Utf8;
  BOM_seen : bool
}.

(** [new TextDecoder()]. *)
Definition create : t := {| decoder := utf8_initial; BOM_seen := false |}.

(** A scalar value as UTF-16 code units. *)
Definition utf16 (c : N) : jsstring :=
  if (c <? 65536)%N then [c]
  else [(55296 + N.shiftr (c - 65536) 10)%N; (56320 + N.land (c - 65536) 1023)%N].

(** Serializing one decoded code point: the first one is dropped when it
    is the byte order mark. *)
Definition serialize (bom_seen : bool) (c : N) : bool * jsstring :=
  if bom_seen then (true, utf16 c)
  else (true, if (c =? 65279)%N then [] else utf16 c).

Fixpoint serialize_all (bom_seen : bool) (cs : list N) : bool * jsstring :=
  match cs with
  | [] => (bom_seen, [])
  | c :: cs' =>
      let (b1, o1) := serialize bom_seen c in
      let (b2, o2) := serialize_all b1 cs' in
      (b2, o1 ++ o2)
  end.

(** [decoder.decode(value, { stream: true })]: the bytes of [value] are
    pushed through the decoder, whose state, pending bytes included, is
    kept for the next call; the end of the queue is not flushed. *)
Fixpoint decode (d : t) (value : list byte) : t * jsstring :=
  match value with
  | [] => (d, [])
  | b :: value' =>
      let (u, cps) := process_byte (decoder d) (Byte.to_N b) in
      let (seen, out) := serialize_all (BOM_seen d) cps in
      let (d', rest) := decode {| decoder := u; BOM_seen := seen |} value' in
      (d', out ++ rest)
  end.

End TextDecoder.

(* ================================================================== *)
(** ** Line framing shared by the streaming loops                        *)
(* ================================================================== *)

(** The state the three read loops keep between reads: the decoder and the
    carry-over [buffer]. *)
Record Framing : Type := {
  text_decoder : TextDecoder.t;
  buffer : jsstring
}.

Definition framing_start : Framing :=
  {| text_decoder := TextDecoder.create; buffer := [] |}.

(** The first three statements of each loop body:
    [buffer += decoder.decode(value, { stream: true });]
    [const lines = buffer.split("\n"); buffer = lines.pop() || "";]
    The result is the new state and [lines] after the [pop]. *)
Definition read_lines (f : Framing) (value : list byte)
  : Framing * list jsstring :=
  let (d, text) := TextDecoder.decode (text_decoder f) value in
  let buffer0 := buffer f ++ text in
  let lines := split NL buffer0 in
  ({| text_decoder := d; buffer := or_else (pop lines) [] |},
   removelast lines).

(** All complete lines a sequence of reads hands to the line handler. *)
Fixpoint decoded_lines_from (f : Framing) (chunks : list (list byte))
  : list jsstring :=
  match chunks with
  | [] => []
  | value :: rest =>
      let (f', lines) := read_lines f value in
      lines ++ decoded_lines_from f' rest
  end.

Definition decoded_lines (chunks : list (list byte)) : list jsstring :=
  decoded_lines_from framing_start chunks.

(* ================================================================== *)
(** ** Values, the engine interface and the outside world                *)
(* ================================================================== *)

(** A value produced by [JSON.parse] or read off one by property access.
    Numbers are the engine's. *)
#[warnings="-register-all"] Inductive JSValue (num : Type) : Type :=
| JUndefined
| JNull
| JBool (b : bool)
| JNumber (n : num)
| JString (s : jsstring)
| JArray (items : list (JSValue num))
| JObject (fields : list (jsstring * JSValue num)).

Arguments JUndefined {num}.
Arguments JNull {num}.
Arguments JBool {num} b.
Arguments JString {num} s.

(** An exception value.  [Failure] is a rejection that comes from outside
    the adapter: the network, a body read, the SDK. *)
Inductive Exn : Type :=
| Error (message : jsstring)
| TypeError
| SyntaxError
| Failure (reason : jsstring).

(** What the adapters need from the engine: its numbers with their
    truthiness, [JSON.parse] ([None] when it throws a SyntaxError), and the
    string a non-string value contributes to [+=] on a string. *)
Class JSEngine : Type := {
  num : Type;
  num_truthy : num -> bool;
  JSON_parse : jsstring -> option (JSValue num);
  ToString_other : JSValue num -> Exn + jsstring
}.

Section Adapters.

Context {engine : JSEngine}.

Definition Value : Type := JSValue num.

(** ToBoolean. *)
Definition truthy (v : Value) : bool :=
  match v with
  | JUndefined | JNull => false
  | JBool b => b
  | JNumber n => num_truthy n
  | JString s => truthy_string s
  | JArray _ | JObject _ => true
  end.

(** ToString, as string concatenation applies it to its right operand. *)
Definition ToString (v : Value) : Exn + jsstring :=
  match v with
  | JString s => inr s
  | _ => ToString_other v
  end.

(** The own property [key] of an object built by [JSON.parse]: of two
    members with one name the later one is kept. *)
Definition own_property (key : jsstring) (fields : list (jsstring * Value))
  : Value :=
  fold_left (fun found kv => if jseqb (fst kv) key then snd kv else found)
            fields JUndefined.

(** [v.key] for the names the adapters read ([message], [content],
    [choices], [delta], [models], [name], [data], [id]): none of them is
    inherited from a built-in prototype, so only an object can have one. *)
Definition Get (v : Value) (key : jsstring) : Exn + Value :=
  match v with
  | JUndefined | JNull => inl TypeError
  | JObject fields => inr (own_property key fields)
  | _ => inr JUndefined
  end.

(** [v[0]]. *)
Definition Get0 (v : Value) : Exn + Value :=
  match v with
  | JUndefined | JNull => inl TypeError
  | JArray items => inr (hd JUndefined items)
  | JString s => inr (match s with [] => JUndefined | c :: _ => JString [c] end)
  | JObject fields => inr (own_property (js "0") fields)
  | _ => inr JUndefined
  end.

Definition nullish (v : Value) : bool :=
  match v with JUndefined | JNull => true | _ => false end.

(** [v?.key] and [v?.[0]], where [v] is the value of the chain so far. *)
Definition OptGet (v : Value) (key : jsstring) : Value :=
  if nullish v then JUndefined
  else match Get v key with inr x => x | inl _ => JUndefined end.

Definition OptGet0 (v : Value) : Value :=
  if nullish v then JUndefined
  else match Get0 v with inr x => x | inl _ => JUndefined end.

(** *** Shared request and response shapes ([types.ts]) *)

Inductive ProviderType : Type :=
| v0 | ollama | ollama_cloud | lmstudio | llama.

Inductive Role : Type := user | assistant | system.

Definition role_name (r : Role) : jsstring :=
  match r with
  | user => js "user"
  | assistant => js "assistant"
  | system => js "system"
  end.

Record Message : Type := { role : Role; content : jsstring }.

Record ChatRequest : Type := {
  message : jsstring;
  chatId : option jsstring;
  attachments : option (list jsstring);
  streaming : option bool;
  messages : option (list Message)
}.

Record ProviderConfig : Type := {
  baseUrl : option jsstring;
  apiKey : option jsstring;
  modelName : option jsstring;
  temperature : option num;
  maxTokens : option num
}.

(** [OllamaMessage], [LlamaMessage] and [LMStudioMessage]. *)
Record WireMessage : Type := { wire_role : jsstring; wire_content : jsstring }.

Record ResponseMessage : Type := {
  rm_id : jsstring;
  rm_role : jsstring;
  rm_content : Value;
  experimental_content : option Document
}.

Record ChatResponse : Type := {
  id : jsstring;
  response_messages : list ResponseMessage
}.

(** *** The upstream transport *)

Inductive Method : Type := GET | POST.

(** [x || literal] on an optional number of the configuration. *)
Inductive NumberOr : Type :=
| Configured (n : num)
| Literal (source : jsstring).

Definition number_or (x : option num) (literal : jsstring) : NumberOr :=
  match x with
  | Some n => if num_truthy n then Configured n else Literal literal
  | None => Literal literal
  end.

(** The object handed to [JSON.stringify] as the request body. *)
Inductive Body : Type :=
| OllamaChat (model : jsstring) (msgs : list WireMessage) (stream : bool)
             (options_temperature options_num_predict : option num)
| ChatCompletions (model : jsstring) (msgs : list WireMessage)
                  (body_temperature max_tokens : NumberOr) (stream : bool).

Definition Headers : Type := list (jsstring * jsstring).

Record Request : Type := {
  url : jsstring;
  method : Method;
  headers : option Headers;
  body : option Body
}.

(** A response body as the reader delivers it: the chunks, then the end of
    the stream or a read that rejects. *)
Record ReadableBody : Type := {
  chunks : list (list byte);
  read_failure : option Exn
}.

Record Response : Type := {
  ok : bool;
  status : N;
  statusText : jsstring;
  text : Exn + jsstring;
  json : Exn + Value;
  response_body : option ReadableBody
}.

(** *** The v0 SDK *)

Record ClientConfig : Type := {
  client_baseUrl : option jsstring;
  client_apiKey : option jsstring
}.

Inductive ResponseMode : Type := experimental_stream | sync.

Inductive SdkCall : Type :=
| chats_create (msg : jsstring) (responseMode : option ResponseMode)
               (atts : option (list jsstring))
| chats_sendMessage (chat : jsstring) (msg : jsstring)
                    (responseMode : option ResponseMode)
                    (atts : option (list jsstring)).

(** A [ChatDetail]; each message is an object given by its members. *)
Record ChatDetail : Type := {
  detail_id : jsstring;
  detail_demo : Value;
  detail_messages : option (list (list (jsstring * Value)))
}.

Inductive SdkResult : Type :=
| SdkStream
| SdkChat (detail : ChatDetail).

(** *** The world a call runs in *)

Record World : Type := {
  upstream : Request -> Exn + Response;
  sdk : ClientConfig -> SdkCall -> Exn + SdkResult;
  Date_now : N;
  Math_random_36 : jsstring;
  Date_toISOString : jsstring
}.

(** *** Effects *)

(** A frame enqueued on the outbound stream. *)
Inductive Frame : Type :=
| MetadataFrame (chat : jsstring) (createdAt : jsstring)
| DeltaFrame (delta : Document)
| TextFrame (text_content : Value)
| DoneFrame.

Inductive Effect : Type :=
| Fetch (req : Request)
| Sdk (client : ClientConfig) (call : SdkCall)
| ConsoleError (label : jsstring) (e : Exn)
| Enqueue (f : Frame)
| Close
| ErrorStream (e : Exn).

(** A computation: the effects it performed, in order, and how it ended. *)
Definition M (A : Type) : Type := (list Effect * (Exn + A))%type.

Definition ret {A : Type} (a : A) : M A := ([], inr a).

Definition throw {A : Type} (e : Exn) : M A := ([], inl e).

Definition bind {A B : Type} (m : M A) (k : A -> M B) : M B :=
  match m with
  | (t, inl e) => (t, inl e)
  | (t, inr a) => let (t', r) := k a in (t ++ t', r)
  end.

Definition try_catch {A : Type} (m : M A) (handle : Exn -> M A) : M A :=
  match m with
  | (t, inl e) => let (t', r) := handle e in (t ++ t', r)
  | (t, inr a) => (t, inr a)
  end.

Definition perform (e : Effect) : M unit := ([e], inr tt).

Definition lift {A : Type} (r : Exn + A) : M A := ([], r).

Definition effects {A : Type} (m : M A) : list Effect := fst m.

Definition outcome {A : Type} (m : M A) : Exn + A := snd m.

Definition fetch (W : World) (req : Request) : M Response :=
  ([Fetch req], upstream W req).

End Adapters.

Declare Scope js_scope.
Delimit Scope js_scope with js.
Notation "x <- m ;; k" := (bind m (fun x => k))
  (at level 61, m at next level, right associativity) : js_scope.
Notation "m ;; k" := (bind m (fun _ => k))
  (at level 61, right associativity) : js_scope.

(* ================================================================== *)
(** ** Helpers the adapters share                                        *)
(* ================================================================== *)

Section Common.

Context {engine : JSEngine}.
Local Open Scope js_scope.

(** [if (config.apiKey) headers.Authorization = `Bearer ${config.apiKey}`]. *)
Definition authorization (key : option jsstring) : Headers :=
  match key with
  | Some k =>
      if truthy_string k then [(js "Authorization", js "Bearer " ++ k)] else []
  | None => []
  end.

Definition json_content_type : Headers :=
  [(js "Content-Type", js "application/json")].

(** [`${prefix}-${Date.now()}-${Math.random().toString(36).substring(7)}`]. *)
Definition new_chat_id (W : World) (prefix : jsstring) : jsstring :=
  prefix ++ js "-" ++ decimal (Date_now W) ++ js "-"
  ++ substring 7 (Math_random_36 W).

(** [messages.map((msg, idx) => ({ id: `msg-${idx}`, role, content }))],
    from index [idx] on. *)
Fixpoint echo_from (idx : N) (msgs : list WireMessage) : list ResponseMessage :=
  match msgs with
  | [] => []
  | msg :: rest =>
      {| rm_id := js "msg-" ++ decimal idx;
         rm_role := wire_role msg;
         rm_content := JString (wire_content msg);
         experimental_content := None |} :: echo_from (idx + 1) rest
  end.

Definition echo (msgs : list WireMessage) : list ResponseMessage :=
  echo_from 0 msgs.

(** [[{ role: "user", content: request.message }]]. *)
Definition first_turn (request : ChatRequest) : list WireMessage :=
  [{| wire_role := js "user"; wire_content := message request |}].

(** [[...(request.messages || []).map(...), { role: "user", content }]]. *)
Definition with_prior_turns (request : ChatRequest) : list WireMessage :=
  map (fun msg => {| wire_role := role_name (role msg);
                     wire_content := content msg |})
      (match messages request with Some l => l | None => [] end)
  ++ [{| wire_role := js "user"; wire_content := message request |}].

Definition wants_stream (request : ChatRequest) : bool :=
  match streaming request with Some b => b | None => false end.

(** [for (const line of lines) { ... }] with the loop's variables in [st]. *)
Fixpoint for_each {S : Type} (handle : S -> jsstring -> M S) (st : S)
  (lines : list jsstring) : M S :=
  match lines with
  | [] => ret st
  | line :: rest => st' <- handle st line ;; for_each handle st' rest
  end.

(** [while (true) { const { done, value } = await reader.read(); ... }]
    over the chunks the reader delivers. *)
Fixpoint read_chunks {S : Type} (handle : S -> jsstring -> M S)
  (f : Framing) (st : S) (values : list (list byte)) : M (Framing * S) :=
  match values with
  | [] => ret (f, st)
  | value :: rest =>
      let (f', lines) := read_lines f value in
      st' <- for_each handle st lines ;;
      read_chunks handle f' st' rest
  end.

(** The whole read loop: the chunks, then [done] or the rejected read. *)
Definition read_loop {S : Type} (handle : S -> jsstring -> M S) (st : S)
  (reader : ReadableBody) : M S :=
  r <- read_chunks handle framing_start st (chunks reader) ;;
  match read_failure reader with
  | Some e => throw e
  | None => ret (snd r)
  end.

(** [const reader = response.body?.getReader();
     if (!reader) throw new Error("No response body")]. *)
Definition getReader (response : Response) : M ReadableBody :=
  match response_body response with
  | Some reader => ret reader
  | None => throw (Error (js "No response body"))
  end.

(** [items.map((m) => m[key])]. *)
Fixpoint map_get (items : list Value) (key : jsstring) : Exn + list Value :=
  match items with
  | [] => inr []
  | m :: rest =>
      match Get m key with
      | inl e => inl e
      | inr x =>
          match map_get rest key with
          | inl e => inl e
          | inr xs => inr (x :: xs)
          end
      end
  end.

(** [v?.map((m) => m[key]) || []]. *)
Definition optional_map_get (v : Value) (key : jsstring) : Exn + list Value :=
  match v with
  | JUndefined | JNull => inr []
  | JArray items => map_get items key
  | _ => inl TypeError
  end.

Inductive ChatResult : Type :=
| Chat (r : ChatResponse)
| ReadableStream
| UpstreamChat (chat : jsstring) (demo : Value)
               (msgs : option (list (list (jsstring * Value))))
| UpstreamStream.

End Common.

(* ================================================================== *)
(** ** [OllamaProvider] and [OllamaCloudProvider]                        *)
(* ================================================================== *)

Section Ollama.

Context {engine : JSEngine}.
Local Open Scope js_scope.

(** [this.formatContentAsMessageBinaryFormat(x)] on a value: only a string
    has a callable [split]. *)
Definition call_formatContent (x : Value) : Exn + Document :=
  match x with
  | JString s => inr (formatContentAsMessageBinaryFormat s)
  | _ => inl TypeError
  end.

Definition ollama_chat_request (baseUrl model : jsstring)
  (msgs : list WireMessage) (config : ProviderConfig) (stream : bool)
  : Request :=
  {| url := baseUrl ++ js "/api/chat";
     method := POST;
     headers := Some (json_content_type ++ authorization (apiKey config));
     body := Some (OllamaChat model msgs stream
                              (temperature config) (maxTokens config)) |}.

Definition ollama_api_error (response : Response) (errorText : jsstring) : Exn :=
  Error (js "Ollama API error: " ++ decimal (status response) ++ js " "
         ++ statusText response ++ js " - " ++ errorText).

Definition OllamaProvider_syncChat (W : World) (baseUrl model : jsstring)
  (msgs : list WireMessage) (config : ProviderConfig) : M ChatResponse :=
  response <- fetch W (ollama_chat_request baseUrl model msgs config false) ;;
  (if negb (ok response)
   then errorText <- lift (text response) ;;
        throw (ollama_api_error response errorText)
   else ret tt) ;;
  data <- lift (json response) ;;
  let chat := new_chat_id W (js "ollama") in
  data_message <- lift (Get data (js "message")) ;;
  data_message_content <- lift (Get data_message (js "content")) ;;
  assistantContent <- lift (call_formatContent data_message_content) ;;
  ret {| id := chat;
         response_messages :=
           echo msgs ++
           [{| rm_id := js "msg-" ++ decimal (N.of_nat (length msgs));
               rm_role := js "assistant";
               rm_content := data_message_content;
               experimental_content := Some assistantContent |}] |}.

(** The variables of the read loop that the line handler updates. *)
Record Accumulator : Type := {
  fullContent : jsstring;
  currentFormattedContent : Document
}.

(** The body of [for (const line of lines)] in [streamChat]. *)
Definition ollama_line (st : Accumulator) (line : jsstring) : M Accumulator :=
  if truthy_string (trim line) then
    try_catch
      (parsed <- lift (match JSON_parse line with
                       | Some v => inr v
                       | None => inl SyntaxError
                       end) ;;
       parsed_message <- lift (Get parsed (js "message")) ;;
       if truthy (OptGet parsed_message (js "content")) then
         piece <- lift (ToString (OptGet parsed_message (js "content"))) ;;
         let fullContent' := fullContent st ++ piece in
         let newFormattedContent :=
           formatContentAsMessageBinaryFormat fullContent' in
         let delta :=
           createDelta (currentFormattedContent st) newFormattedContent in
         perform (Enqueue (DeltaFrame delta)) ;;
         ret {| fullContent := fullContent';
                currentFormattedContent := newFormattedContent |}
       else ret st)
      (fun e =>
         perform (ConsoleError (js "Failed to parse Ollama response:") e) ;;
         ret st)
  else ret st.

(** [start(controller)] of the stream [streamChat] returns. *)
Definition OllamaProvider_streamChat (W : World) (baseUrl model : jsstring)
  (msgs : list WireMessage) (config : ProviderConfig) : M unit :=
  let chat := new_chat_id W (js "ollama") in
  try_catch
    (perform (Enqueue (MetadataFrame chat (Date_toISOString W))) ;;
     response <- fetch W (ollama_chat_request baseUrl model msgs config true) ;;
     (if negb (ok response)
      then errorText <- lift (text response) ;;
           throw (ollama_api_error response errorText)
      else ret tt) ;;
     reader <- getReader response ;;
     _ <- read_loop ollama_line
            {| fullContent := []; currentFormattedContent := [] |} reader ;;
     perform (Enqueue DoneFrame) ;;
     perform Close)
    (fun error =>
       perform (ConsoleError (js "Streaming error:") error) ;;
       perform (ErrorStream error)).

Definition OllamaProvider_createChat (W : World) (request : ChatRequest)
  (config : ProviderConfig) : M ChatResult :=
  let base := or_else (baseUrl config) (js "http://localhost:11434") in
  let model := or_else (modelName config) (js "llama3.2") in
  let msgs := first_turn request in
  if wants_stream request
  then OllamaProvider_streamChat W base model msgs config ;; ret ReadableStream
  else r <- OllamaProvider_syncChat W base model msgs config ;; ret (Chat r).

Definition OllamaProvider_continueChat (W : World) (request : ChatRequest)
  (config : ProviderConfig) : M ChatResult :=
  let base := or_else (baseUrl config) (js "http://localhost:11434") in
  let model := or_else (modelName config) (js "llama3.2") in
  let msgs := with_prior_turns request in
  if wants_stream request
  then OllamaProvider_streamChat W base model msgs config ;; ret ReadableStream
  else r <- OllamaProvider_syncChat W base model msgs config ;; ret (Chat r).

Definition ollama_fallback_models : list Value :=
  [JString (js "llama3.2"); JString (js "llama3.1");
   JString (js "mistral"); JString (js "codellama")].

Definition OllamaProvider_listModels (W : World) (config : ProviderConfig)
  : M (list Value) :=
  let base := or_else (baseUrl config) (js "http://localhost:11434") in
  try_catch
    (let hdrs := authorization (apiKey config) in
     response <- fetch W {| url := base ++ js "/api/tags";
                            method := GET;
                            headers := if (0 <? length hdrs)%nat
                                       then Some hdrs else None;
                            body := None |} ;;
     (if negb (ok response)
      then errorText <- lift (text response) ;;
           throw (Error (js "Failed to fetch models: "
                         ++ decimal (status response) ++ js " " ++ errorText))
      else ret tt) ;;
     data <- lift (json response) ;;
     data_models <- lift (Get data (js "models")) ;;
     lift (optional_map_get data_models (js "name")))
    (fun error =>
       perform (ConsoleError (js "Failed to fetch Ollama models:") error) ;;
       ret ollama_fallback_models).

(** [{ ...config, baseUrl: config.baseUrl || "https://ollama.com" }]. *)
Definition cloudConfig (config : ProviderConfig) : ProviderConfig :=
  {| baseUrl := Some (or_else (baseUrl config) (js "https://ollama.com"));
     apiKey := apiKey config;
     modelName := modelName config;
     temperature := temperature config;
     maxTokens := maxTokens config |}.

Definition missing (key : option jsstring) : bool :=
  match key with Some k => negb (truthy_string k) | None => true end.

Definition ollama_cloud_key_error : Exn :=
  Error (js "Ollama Cloud requires an API key. Please configure your API key in settings.").

Definition OllamaCloudProvider_createChat (W : World) (request : ChatRequest)
  (config : ProviderConfig) : M ChatResult :=
  let cloud := cloudConfig config in
  if missing (apiKey cloud) then throw ollama_cloud_key_error
  else OllamaProvider_createChat W request cloud.

Definition OllamaCloudProvider_continueChat (W : World) (request : ChatRequest)
  (config : ProviderConfig) : M ChatResult :=
  let cloud := cloudConfig config in
  if missing (apiKey cloud) then throw ollama_cloud_key_error
  else OllamaProvider_continueChat W request cloud.

Definition OllamaCloudProvider_listModels (W : World) (config : ProviderConfig)
  : M (list Value) :=
  OllamaProvider_listModels W (cloudConfig config).

End Ollama.

(* ================================================================== *)
(** ** [LMStudioProvider] and [LlamaProvider]                            *)
(* ================================================================== *)

Section SSEProviders.

Context {engine : JSEngine}.
Local Open Scope js_scope.

(** The body of [for (const line of lines)] in both [streamChat]s; they
    differ in the label they log under. *)
Definition sse_line (label : jsstring) (st : unit) (line : jsstring) : M unit :=
  if startsWith (trim line) (js "data: ") then
    let data := substring 6 (trim line) in
    if jseqb data (js "[DONE]") then ret tt
    else
      try_catch
        (parsed <- lift (match JSON_parse data with
                         | Some v => inr v
                         | None => inl SyntaxError
                         end) ;;
         parsed_choices <- lift (Get parsed (js "choices")) ;;
         let content :=
           OptGet (OptGet (OptGet0 parsed_choices) (js "delta")) (js "content") in
         if truthy content
         then perform (Enqueue (TextFrame content))
         else ret tt)
        (fun e => perform (ConsoleError label e))
  else ret tt.

(** [data.choices[0].message.content]. *)
Definition first_choice_content (data : Value) : Exn + Value :=
  match Get data (js "choices") with
  | inl e => inl e
  | inr choices =>
      match Get0 choices with
      | inl e => inl e
      | inr choice =>
          match Get choice (js "message") with
          | inl e => inl e
          | inr m => Get m (js "content")
          end
      end
  end.

Definition completions_body (model : jsstring) (msgs : list WireMessage)
  (config : ProviderConfig) (stream : bool) : Body :=
  ChatCompletions model msgs
    (number_or (temperature config) (js "0.7"))
    (number_or (maxTokens config) (js "2000"))
    stream.

(** *** LM Studio *)

Definition lmstudio_chat_request (baseUrl model : jsstring)
  (msgs : list WireMessage) (config : ProviderConfig) (stream : bool)
  : Request :=
  {| url := baseUrl ++ js "/v1/chat/completions";
     method := POST;
     headers := Some json_content_type;
     body := Some (completions_body model msgs config stream) |}.

Definition LMStudioProvider_syncChat (W : World) (baseUrl model : jsstring)
  (msgs : list WireMessage) (config : ProviderConfig) : M ChatResponse :=
  response <- fetch W (lmstudio_chat_request baseUrl model msgs config false) ;;
  (if negb (ok response)
   then throw (Error (js "LM Studio API error: " ++ statusText response))
   else ret tt) ;;
  data <- lift (json response) ;;
  let chat := new_chat_id W (js "lmstudio") in
  assistant_content <- lift (first_choice_content data) ;;
  ret {| id := chat;
         response_messages :=
           echo msgs ++
           [{| rm_id := js "msg-" ++ decimal (N.of_nat (length msgs));
               rm_role := js "assistant";
               rm_content := assistant_content;
               experimental_content := None |}] |}.

Definition LMStudioProvider_streamChat (W : World) (baseUrl model : jsstring)
  (msgs : list WireMessage) (config : ProviderConfig) : M unit :=
  try_catch
    (response <- fetch W (lmstudio_chat_request baseUrl model msgs config true) ;;
     (if negb (ok response)
      then throw (Error (js "LM Studio API error: " ++ statusText response))
      else ret tt) ;;
     reader <- getReader response ;;
     _ <- read_loop (sse_line (js "Failed to parse LM Studio response:")) tt
            reader ;;
     perform Close)
    (fun error => perform (ErrorStream error)).

Definition LMStudioProvider_createChat (W : World) (request : ChatRequest)
  (config : ProviderConfig) : M ChatResult :=
  let base := or_else (baseUrl config) (js "http://localhost:1234") in
  let model := or_else (modelName config) (js "local-model") in
  let msgs := first_turn request in
  if wants_stream request
  then LMStudioProvider_streamChat W base model msgs config ;; ret ReadableStream
  else r <- LMStudioProvider_syncChat W base model msgs config ;; ret (Chat r).

Definition LMStudioProvider_continueChat (W : World) (request : ChatRequest)
  (config : ProviderConfig) : M ChatResult :=
  let base := or_else (baseUrl config) (js "http://localhost:1234") in
  let model := or_else (modelName config) (js "local-model") in
  let msgs := with_prior_turns request in
  if wants_stream request
  then LMStudioProvider_streamChat W base model msgs config ;; ret ReadableStream
  else r <- LMStudioProvider_syncChat W base model msgs config ;; ret (Chat r).

Definition lmstudio_fallback_models : list Value := [JString (js "local-model")].

Definition LMStudioProvider_listModels (W : World) (config : ProviderConfig)
  : M (list Value) :=
  let base := or_else (baseUrl config) (js "http://localhost:1234") in
  try_catch
    (response <- fetch W {| url := base ++ js "/v1/models";
                            method := GET;
                            headers := None;
                            body := None |} ;;
     data <- lift (json response) ;;
     data_data <- lift (Get data (js "data")) ;;
     lift (optional_map_get data_data (js "id")))
    (fun error =>
       perform (ConsoleError (js "Failed to fetch LM Studio models:") error) ;;
       ret lmstudio_fallback_models).

(** *** Llama *)

Definition llama_chat_request (baseUrl model key : jsstring)
  (msgs : list WireMessage) (config : ProviderConfig) (stream : bool)
  : Request :=
  {| url := baseUrl;
     method := POST;
     headers := Some (json_content_type
                      ++ [(js "Authorization", js "Bearer " ++ key)]);
     body := Some (completions_body model msgs config stream) |}.

Definition llama_api_error (response : Response) (errorText : jsstring) : Exn :=
  Error (js "Llama API error: " ++ decimal (status response) ++ js " "
         ++ statusText response ++ js " - " ++ errorText).

Definition LlamaProvider_syncChat (W : World) (baseUrl model key : jsstring)
  (msgs : list WireMessage) (config : ProviderConfig) : M ChatResponse :=
  response <- fetch W (llama_chat_request baseUrl model key msgs config false) ;;
  (if negb (ok response)
   then errorText <- lift (text response) ;;
        throw (llama_api_error response errorText)
   else ret tt) ;;
  data <- lift (json response) ;;
  let chat := new_chat_id W (js "llama") in
  assistant_content <- lift (first_choice_content data) ;;
  ret {| id := chat;
         response_messages :=
           echo msgs ++
           [{| rm_id := js "msg-" ++ decimal (N.of_nat (length msgs));
               rm_role := js "assistant";
               rm_content := assistant_content;
               experimental_content := None |}] |}.

Definition LlamaProvider_streamChat (W : World) (baseUrl model key : jsstring)
  (msgs : list WireMessage) (config : ProviderConfig) : M unit :=
  try_catch
    (response <- fetch W (llama_chat_request baseUrl model key msgs config true) ;;
     (if negb (ok response)
      then errorText <- lift (text response) ;;
           throw (llama_api_error response errorText)
      else ret tt) ;;
     reader <- getReader response ;;
     _ <- read_loop (sse_line (js "Failed to parse Llama response:")) tt reader ;;
     perform Close)
    (fun error => perform (ErrorStream error)).

Definition llama_key_error : Exn :=
  Error (js "Llama API key is required. Please configure your API key in settings.").

Definition llama_default_url : jsstring :=
  js "https://api.llama-api.com/v1/chat/completions".

Definition LlamaProvider_createChat (W : World) (request : ChatRequest)
  (config : ProviderConfig) : M ChatResult :=
  let base := or_else (baseUrl config) llama_default_url in
  let model := or_else (modelName config) (js "llama3.2-1b") in
  match apiKey config with
  | Some key =>
      if negb (truthy_string key) then throw llama_key_error
      else
        let msgs := first_turn request in
        if wants_stream request
        then LlamaProvider_streamChat W base model key msgs config ;;
             ret ReadableStream
        else r <- LlamaProvider_syncChat W base model key msgs config ;;
             ret (Chat r)
  | None => throw llama_key_error
  end.

Definition LlamaProvider_continueChat (W : World) (request : ChatRequest)
  (config : ProviderConfig) : M ChatResult :=
  let base := or_else (baseUrl config) llama_default_url in
  let model := or_else (modelName config) (js "llama3.2-1b") in
  match apiKey config with
  | Some key =>
      if negb (truthy_string key) then throw llama_key_error
      else
        let msgs := with_prior_turns request in
        if wants_stream request
        then LlamaProvider_streamChat W base model key msgs config ;;
             ret ReadableStream
        else r <- LlamaProvider_syncChat W base model key msgs config ;;
             ret (Chat r)
  | None => throw llama_key_error
  end.

Definition LlamaProvider_listModels (W : World) (config : ProviderConfig)
  : M (list Value) :=
  ret [JString (js "llama3.2-1b"); JString (js "llama3.2-3b");
       JString (js "llama3.1-8b"); JString (js "llama3.1-70b");
       JString (js "llama3.1-405b")].

End SSEProviders.

(* ================================================================== *)
(** ** [V0Provider]                                                      *)
(* ================================================================== *)

Section V0.

Context {engine : JSEngine}.
Local Open Scope js_scope.

Definition given (x : option jsstring) : option jsstring :=
  match x with
  | Some s => if truthy_string s then Some s else None
  | None => None
  end.

(** [clientConfig] as the two [if]s fill it. *)
Definition clientConfig (config : ProviderConfig) : ClientConfig :=
  {| client_baseUrl := given (baseUrl config);
     client_apiKey := given (apiKey config) |}.

(** [request.attachments && request.attachments.length > 0 && {...}]. *)
Definition attachments_member (request : ChatRequest) : option (list jsstring) :=
  match attachments request with
  | Some (a :: l) => Some (a :: l)
  | _ => None
  end.

Definition call (W : World) (client : ClientConfig) (c : SdkCall) : M SdkResult :=
  ([Sdk client c], sdk W client c).

(** [mapV0Response]: every message gets an [experimental_content] member
    holding what it had under that name. *)
Definition mapV0Response (detail : ChatDetail) : ChatResult :=
  UpstreamChat (detail_id detail) (detail_demo detail)
    (match detail_messages detail with
     | Some msgs =>
         Some (map (fun msg =>
                      msg ++ [(js "experimental_content",
                               own_property (js "experimental_content") msg)])
                   msgs)
     | None => None
     end).

Definition returned (result : SdkResult) : ChatResult :=
  match result with
  | SdkStream => UpstreamStream
  | SdkChat detail => mapV0Response detail
  end.

Definition V0Provider_createChat (W : World) (request : ChatRequest)
  (config : ProviderConfig) : M ChatResult :=
  let client := clientConfig config in
  result <- call W client
              (chats_create (message request)
                 (Some (if wants_stream request
                        then experimental_stream else sync))
                 (attachments_member request)) ;;
  ret (returned result).

Definition V0Provider_continueChat (W : World) (request : ChatRequest)
  (config : ProviderConfig) : M ChatResult :=
  match given (chatId request) with
  | None => throw (Error (js "Chat ID is required for continuing chat"))
  | Some chat =>
      let client := clientConfig config in
      result <- call W client
                  (chats_sendMessage chat (message request)
                     (if wants_stream request
                      then Some experimental_stream else None)
                     (attachments_member request)) ;;
      ret (returned result)
  end.

Definition V0Provider_listModels (W : World) (config : ProviderConfig)
  : M (list Value) :=
  ret [JString (js "v0-default")].

End V0.

(* ================================================================== *)
(** ** [ProviderFactory]                                                 *)
(* ================================================================== *)

Section Factory.

Context {engine : JSEngine}.
Local Open Scope js_scope.

(** The [AIProvider] interface. *)
Record AIProvider : Type := {
  name : ProviderType;
  createChat : World -> ChatRequest -> ProviderConfig -> M ChatResult;
  continueChat : World -> ChatRequest -> ProviderConfig -> M ChatResult;
  listModels : World -> ProviderConfig -> M (list Value)
}.

Definition V0Provider : AIProvider :=
  {| name := v0;
     createChat := V0Provider_createChat;
     continueChat := V0Provider_continueChat;
     listModels := V0Provider_listModels |}.

Definition OllamaProvider : AIProvider :=
  {| name := ollama;
     createChat := OllamaProvider_createChat;
     continueChat := OllamaProvider_continueChat;
     listModels := OllamaProvider_listModels |}.

Definition OllamaCloudProvider : AIProvider :=
  {| name := ollama_cloud;
     createChat := OllamaCloudProvider_createChat;
     continueChat := OllamaCloudProvider_continueChat;
     listModels := OllamaCloudProvider_listModels |}.

Definition LMStudioProvider : AIProvider :=
  {| name := lmstudio;
     createChat := LMStudioProvider_createChat;
     continueChat := LMStudioProvider_continueChat;
     listModels := LMStudioProvider_listModels |}.

Definition LlamaProvider : AIProvider :=
  {| name := llama;
     createChat := LlamaProvider_createChat;
     continueChat := LlamaProvider_continueChat;
     listModels := LlamaProvider_listModels |}.

(** The identifier a [ProviderType] is on the wire. *)
Definition provider_id (p : ProviderType) : jsstring :=
  match p with
  | v0 => js "v0"
  | ollama => js "ollama"
  | ollama_cloud => js "ollama-cloud"
  | lmstudio => js "lmstudio"
  | llama => js "llama"
  end.

(** The static [providers] map. *)
Definition providers : list (ProviderType * AIProvider) :=
  [(v0, V0Provider); (ollama, OllamaProvider);
   (ollama_cloud, OllamaCloudProvider); (lmstudio, LMStudioProvider);
   (llama, LlamaProvider)].

(** [ProviderFactory.getProvider] on the identifier it is called with. *)
Definition getProvider (type : jsstring) : Exn + AIProvider :=
  match find (fun entry => jseqb (provider_id (fst entry)) type) providers with
  | Some entry => inr (snd entry)
  | None => inl (Error (js "Provider " ++ type ++ js " not found"))
  end.

(** The adapter registered for a provider type. *)
Definition adapter (p : ProviderType) : AIProvider :=
  match p with
  | v0 => V0Provider
  | ollama => OllamaProvider
  | ollama_cloud => OllamaCloudProvider
  | lmstudio => LMStudioProvider
  | llama => LlamaProvider
  end.

Record ProviderInfo : Type := {
  info_id : ProviderType;
  info_name : jsstring;
  description : jsstring;
  requiresApiKey : bool;
  defaultBaseUrl : option jsstring
}.

Definition getAllProviders : list ProviderInfo :=
  [ {| info_id := v0; info_name := js "v0.dev";
       description := js "Vercel v0 - AI-powered React component generator";
       requiresApiKey := true; defaultBaseUrl := None |};
    {| info_id := ollama; info_name := js "Ollama (Local)";
       description := js "Run Llama models locally on your machine";
       requiresApiKey := false;
       defaultBaseUrl := Some (js "http://localhost:11434") |};
    {| info_id := ollama_cloud; info_name := js "Ollama Cloud";
       description := js "Ollama hosted in the cloud";
       requiresApiKey := true;
       defaultBaseUrl := Some (js "https://ollama.com") |};
    {| info_id := lmstudio; info_name := js "LM Studio";
       description := js "Local LLM inference with LM Studio";
       requiresApiKey := false;
       defaultBaseUrl := Some (js "http://localhost:1234") |};
    {| info_id := llama; info_name := js "Meta Llama API";
       description := js "Official Meta Llama API";
       requiresApiKey := true;
       defaultBaseUrl := Some (js "https://api.llama-api.com") |} ].

Definition ProviderType_eqb (a b : ProviderType) : bool :=
  match a, b with
  | v0, v0 | ollama, ollama | ollama_cloud, ollama_cloud
  | lmstudio, lmstudio | llama, llama => true
  | _, _ => false
  end.

(** Whether the catalog marks a provider as requiring an API key. *)
Definition catalog_requires_key (p : ProviderType) : bool :=
  existsb (fun info => ProviderType_eqb (info_id info) p && requiresApiKey info)
          getAllProviders.

Record ModelInfo : Type := {
  model_id : Value;
  model_name : Value;
  model_provider : jsstring
}.

Definition getAvailableModels (W : World) (providerType : jsstring)
  (config : ProviderConfig) : M (list ModelInfo) :=
  provider <- lift (getProvider providerType) ;;
  modelNames <- listModels provider W config ;;
  ret (map (fun n => {| model_id := n; model_name := n;
                        model_provider := providerType |}) modelNames).

End Factory.

(* ================================================================== *)
(** ** A reference engine                                                *)
(* ================================================================== *)

(** An engine to run the adapters on concrete wire data: a parser for the
    JSON grammar, with numbers kept as exact decimals.  The statements
    about the adapters hold for every engine; this one serves the worked
    scenarios. *)
Module Reference.

(** The number [(-1)^negative * mantissa * 10^exponent]. *)
Record Decimal : Type := {
  negative : bool;
  mantissa : N;
  exponent : Z
}.

Definition V : Type := JSValue Decimal.

Definition is_ws (c : N) : bool :=
  ((c =? 32) || (c =? 9) || (c =? 10) || (c =? 13))%N.

Fixpoint skip_ws (s : jsstring) : jsstring :=
  match s with
  | c :: s' => if is_ws c then skip_ws s' else s
  | [] => []
  end.

Definition is_digit (c : N) : bool := ((48 <=? c) && (c <=? 57))%N.

Definition hex_value (c : N) : option N :=
  if is_digit c then Some (c - 48)%N
  else if ((97 <=? c) && (c <=? 102))%N then Some (c - 87)%N
  else if ((65 <=? c) && (c <=? 70))%N then Some (c - 55)%N
  else None.

Definition hex4 (a b c d : N) : option N :=
  match hex_value a, hex_value b, hex_value c, hex_value d with
  | Some x, Some y, Some z, Some w => Some (((x * 16 + y) * 16 + z) * 16 + w)%N
  | _, _, _, _ => None
  end.

Definition escape (c : N) : option N :=
  if (c =? 34)%N then Some 34%N
  else if (c =? 92)%N then Some 92%N
  else if (c =? 47)%N then Some 47%N
  else if (c =? 98)%N then Some 8%N
  else if (c =? 102)%N then Some 12%N
  else if (c =? 110)%N then Some 10%N
  else if (c =? 114)%N then Some 13%N
  else if (c =? 116)%N then Some 9%N
  else None.

(** The characters of a string after its opening quote, and what follows
    the closing quote. *)
Fixpoint string_body (s : jsstring) : option (jsstring * jsstring) :=
  match s with
  | [] => None
  | c :: s' =>
      if (c =? 34)%N then Some ([], s')
      else if (c =? 92)%N then
        match s' with
        | e :: s'' =>
            if (e =? 117)%N then
              match s'' with
              | a :: b :: x :: y :: rest =>
                  match hex4 a b x y, string_body rest with
                  | Some u, Some (str, r) => Some (u :: str, r)
                  | _, _ => None
                  end
              | _ => None
              end
            else
              match escape e, string_body s'' with
              | Some u, Some (str, r) => Some (u :: str, r)
              | _, _ => None
              end
        | [] => None
        end
      else if (c <? 32)%N then None
      else
        match string_body s' with
        | Some (str, r) => Some (c :: str, r)
        | None => None
        end
  end.

(** A run of digits: their value after [acc], how many, and the rest. *)
Fixpoint digit_run (acc : N) (count : nat) (s : jsstring) : N * nat * jsstring :=
  match s with
  | c :: s' =>
      if is_digit c then digit_run (acc * 10 + (c - 48))%N (S count) s'
      else (acc, count, s)
  | [] => (acc, count, [])
  end.

Definition integer_part (s : jsstring) : option (N * jsstring) :=
  match s with
  | c :: s' =>
      if (c =? 48)%N then Some (0%N, s')
      else if is_digit c then
        let '(n, _, r) := digit_run 0 0 s in Some (n, r)
      else None
  | [] => None
  end.

Definition fraction_part (int : N) (s : jsstring) : option (N * nat * jsstring) :=
  match s with
  | c :: s' =>
      if (c =? 46)%N then
        let '(n, k, r) := digit_run int 0 s' in
        match k with O => None | S _ => Some (n, k, r) end
      else Some (int, O, s)
  | [] => Some (int, O, [])
  end.

Definition exponent_part (s : jsstring) : option (Z * jsstring) :=
  match s with
  | c :: s' =>
      if ((c =? 101) || (c =? 69))%N then
        let '(neg, s'') :=
          match s' with
          | sg :: t =>
              if (sg =? 45)%N then (true, t)
              else if (sg =? 43)%N then (false, t)
              else (false, s')
          | [] => (false, s')
          end in
        let '(n, k, r) := digit_run 0 0 s'' in
        match k with
        | O => None
        | S _ => Some (if neg then (- Z.of_N n)%Z else Z.of_N n, r)
        end
      else Some (0%Z, s)
  | [] => Some (0%Z, [])
  end.

Definition number (s : jsstring) : option (Decimal * jsstring) :=
  let '(neg, s1) :=
    match s with
    | c :: t => if (c =? 45)%N then (true, t) else (false, s)
    | [] => (false, s)
    end in
  match integer_part s1 with
  | None => None
  | Some (int, s2) =>
      match fraction_part int s2 with
      | None => None
      | Some (m, k, s3) =>
          match exponent_part s3 with
          | None => None
          | Some (e, s4) =>
              Some ({| negative := neg; mantissa := m;
                       exponent := (e - Z.of_nat k)%Z |}, s4)
          end
      end
  end.

Fixpoint value (fuel : nat) (s : jsstring) : option (V * jsstring) :=
  match fuel with
  | O => None
  | S fuel' =>
      let s := skip_ws s in
      if startsWith s (js "null") then Some (JNull, skipn 4 s)
      else if startsWith s (js "true") then Some (JBool true, skipn 4 s)
      else if startsWith s (js "false") then Some (JBool false, skipn 5 s)
      else
        match s with
        | [] => None
        | c :: r =>
            if (c =? 34)%N then
              match string_body r with
              | Some (str, r') => Some (JString str, r')
              | None => None
              end
            else if (c =? 91)%N then
              match skip_ws r with
              | d :: r' =>
                  if (d =? 93)%N then Some (JArray [], r')
                  else
                    match elements fuel' r with
                    | Some (items, r'') => Some (JArray items, r'')
                    | None => None
                    end
              | [] => None
              end
            else if (c =? 123)%N then
              match skip_ws r with
              | d :: r' =>
                  if (d =? 125)%N then Some (JObject [], r')
                  else
                    match members fuel' r with
                    | Some (fields, r'') => Some (JObject fields, r'')
                    | None => None
                    end
              | [] => None
              end
            else
              match number s with
              | Some (n, r') => Some (JNumber n, r')
              | None => None
              end
        end
  end
with elements (fuel : nat) (s : jsstring) : option (list V * jsstring) :=
  match fuel with
  | O => None
  | S fuel' =>
      match value fuel' s with
      | None => None
      | Some (v, r) =>
          match skip_ws r with
          | c :: r' =>
              if (c =? 44)%N then
                match elements fuel' r' with
                | Some (vs, r'') => Some (v :: vs, r'')
                | None => None
                end
              else if (c =? 93)%N then Some ([v], r')
              else None
          | [] => None
          end
      end
  end
with members (fuel : nat) (s : jsstring)
  : option (list (jsstring * V) * jsstring) :=
  match fuel with
  | O => None
  | S fuel' =>
      match skip_ws s with
      | q :: r0 =>
          if (q =? 34)%N then
            match string_body r0 with
            | None => None
            | Some (key, r1) =>
                match skip_ws r1 with
                | colon :: r2 =>
                    if (colon =? 58)%N then
                      match value fuel' r2 with
                      | None => None
                      | Some (v, r3) =>
                          match skip_ws r3 with
                          | c :: r4 =>
                              if (c =? 44)%N then
                                match members fuel' r4 with
                                | Some (fs, r5) => Some ((key, v) :: fs, r5)
                                | None => None
                                end
                              else if (c =? 125)%N then Some ([(key, v)], r4)
                              else None
                          | [] => None
                          end
                      end
                    else None
                | [] => None
                end
            end
          else None
      | [] => None
      end
  end.

(** [JSON.parse]: one value, white space around it, nothing else.  Every
    level of the descent uses up input, so twice the length is fuel
    enough. *)
Definition parse (s : jsstring) : option V :=
  match value (2 * length s + 2) s with
  | Some (v, r) => match skip_ws r with [] => Some v | _ :: _ => None end
  | None => None
  end.

(** A decimal is falsy when the double nearest to it is zero: it is zero,
    or at most half the smallest subnormal [2^-1074]. *)
Definition decimal_truthy (d : Decimal) : bool :=
  negb (mantissa d =? 0)%N
  && ((0 <=? exponent d)%Z
      || negb (Z.of_N (mantissa d) * 2 ^ 1075 <=? 10 ^ (- exponent d))%Z).

(** Printing a number: exact for the integers below [2^53]; the other
    decimals are shown as mantissa and exponent, which is not the
    shortest round-trip form of the language. *)
Definition decimal_to_string (d : Decimal) : jsstring :=
  if (mantissa d =? 0)%N then js "0"
  else if (0 <=? exponent d)%Z
          && (Z.of_N (mantissa d) * 10 ^ exponent d <? 2 ^ 53)%Z
  then (if negative d then js "-" else [])
       ++ decimal (Z.to_N (Z.of_N (mantissa d) * 10 ^ exponent d))
  else (if negative d then js "-" else [])
       ++ decimal (mantissa d) ++ js "e"
       ++ (if (exponent d <? 0)%Z then js "-" else js "+")
       ++ decimal (Z.abs_N (exponent d)).

Definition has_own (key : jsstring) (fields : list (jsstring * V)) : bool :=
  existsb (fun kv => jseqb (fst kv) key) fields.

(** ToString on the values other than strings.  An object prints as
    [[object Object]] unless a member named [toString] hides the inherited
    method; an array joins its elements with commas. *)
Fixpoint to_string (v : V) : Exn + jsstring :=
  match v with
  | JUndefined => inr (js "undefined")
  | JNull => inr (js "null")
  | JBool b => inr (if b then js "true" else js "false")
  | JNumber n => inr (decimal_to_string n)
  | JString s => inr s
  | JArray items =>
      (fix join (first : bool) (l : list V) : Exn + jsstring :=
         match l with
         | [] => inr []
         | x :: rest =>
             match (match x with
                    | JUndefined | JNull => inr []
                    | _ => to_string x
                    end), join false rest with
             | inr sx, inr sr =>
                 inr ((if first then [] else js ",") ++ sx ++ sr)
             | inl e, _ => inl e
             | _, inl e => inl e
             end
         end) true items
  | JObject fields =>
      if has_own (js "toString") fields then inl TypeError
      else inr (js "[object Object]")
  end.

#[export] Instance engine : JSEngine :=
  {| num := Decimal;
     num_truthy := decimal_truthy;
     JSON_parse := parse;
     ToString_other := to_string |}.

(** Bytes of an ASCII literal, as [TextEncoder] would give them. *)
Definition bytes (s : string) : list byte :=
  map byte_of_ascii (list_ascii_of_string s).

(** A line feed byte. *)
Definition lf : list byte := [x0a].

(** Wire text written with apostrophes where it has double quotes. *)
Definition quoted (s : string) : jsstring :=
  map (fun c => if (c =? 39)%N then 34%N else c) (js s).

Definition quoted_bytes (s : string) : list byte :=
  map (fun b => if Byte.eqb b x27 then x22 else b) (bytes s).

End Reference.

(* ================================================================== *)
(** ** What the statements below speak of                                *)
(* ================================================================== *)

Section Observations.

Context {engine : JSEngine}.

(** The upstream requests of a run, in order. *)
Fixpoint requests (t : list Effect) : list Request :=
  match t with
  | [] => []
  | Fetch req :: t' => req :: requests t'
  | _ :: t' => requests t'
  end.

(** The calls into the v0 SDK. *)
Fixpoint sdk_calls (t : list Effect) : list (ClientConfig * SdkCall) :=
  match t with
  | [] => []
  | Sdk client c :: t' => (client, c) :: sdk_calls t'
  | _ :: t' => sdk_calls t'
  end.

(** The diagnostics written to the console. *)
Fixpoint diagnostics (t : list Effect) : list (jsstring * Exn) :=
  match t with
  | [] => []
  | ConsoleError label e :: t' => (label, e) :: diagnostics t'
  | _ :: t' => diagnostics t'
  end.

Definition on_stream (e : Effect) : bool :=
  match e with
  | Enqueue _ | Close | ErrorStream _ => true
  | _ => false
  end.

(** What the consumer of the outbound stream observes: the frames, the
    close and the error, in order. *)
Definition outbound (t : list Effect) : list Effect := filter on_stream t.

Definition is_metadata (e : Effect) : bool :=
  match e with Enqueue (MetadataFrame _ _) => true | _ => false end.

Definition is_delta (e : Effect) : bool :=
  match e with Enqueue (DeltaFrame _) => true | _ => false end.

Definition is_text (e : Effect) : bool :=
  match e with Enqueue (TextFrame _) => true | _ => false end.

(** The terminal events: the [[DONE]] frame and the stream error. *)
Definition is_terminal (e : Effect) : bool :=
  match e with
  | Enqueue DoneFrame | ErrorStream _ => true
  | _ => false
  end.

(** An event of the stream; closing it is not one. *)
Definition is_event (e : Effect) : bool :=
  match e with
  | Enqueue _ | ErrorStream _ => true
  | _ => false
  end.

(** The stream begins with a metadata event and has no other. *)
Definition starts_with_one_metadata (out : list Effect) : bool :=
  match out with
  | m :: rest => is_metadata m && forallb (fun e => negb (is_metadata e)) rest
  | [] => false
  end.

(** The stream has a terminal event and no event after the first one. *)
Fixpoint ends_with_one_terminal (out : list Effect) : bool :=
  match out with
  | [] => false
  | e :: rest =>
      if is_terminal e then forallb (fun x => negb (is_event x)) rest
      else ends_with_one_terminal rest
  end.

(** The lifecycle the specification gives every outbound stream. *)
Definition uniform_lifecycle (out : list Effect) : bool :=
  starts_with_one_metadata out && ends_with_one_terminal out.

(** The lifecycle of the SSE adapters' streams: text frames, then the
    stream is closed or errors. *)
Fixpoint text_frames_then_end (out : list Effect) : bool :=
  match out with
  | [Close] => true
  | [ErrorStream _] => true
  | Enqueue (TextFrame _) :: rest => text_frames_then_end rest
  | _ => false
  end.



(** The message list of a request body. *)
Definition request_messages (req : Request) : option (list WireMessage) :=
  match body req with
  | Some (OllamaChat _ msgs _ _ _) => Some msgs
  | Some (ChatCompletions _ msgs _ _ _) => Some msgs
  | None => None
  end.

(** A prior turn as it goes into a request body. *)
Definition wire (m : Message) : WireMessage :=
  {| wire_role := role_name (role m); wire_content := content m |}.

Definition user_turn (m : jsstring) : WireMessage :=
  {| wire_role := js "user"; wire_content := m |}.

(** The prior turns of a request, none when the member is absent. *)
Definition prior_turns (request : ChatRequest) : list Message :=
  match messages request with Some l => l | None => [] end.







(** The assistant text of a synchronous response payload, as each adapter
    family reads it. *)
Definition assistant_text (p : ProviderType) (data : Value) : Exn + Value :=
  match p with
  | ollama | ollama_cloud =>
      match Get data (js "message") with
      | inl e => inl e
      | inr m => Get m (js "content")
      end
  | _ => first_choice_content data
  end.

(** The line handlers only enqueue their own kind of frame and log. *)
Definition delta_or_log (e : Effect) : Prop :=
  match e with
  | Enqueue (DeltaFrame _) | ConsoleError _ _ => True
  | _ => False
  end.

Definition text_or_log (e : Effect) : Prop :=
  match e with
  | Enqueue (TextFrame _) | ConsoleError _ _ => True
  | _ => False
  end.

(** A call of [createChat], or of [continueChat], on the adapter registered
    for a provider. *)
Definition invoke (continuing : bool) (p : ProviderType) (W : World)
  (request : ChatRequest) (config : ProviderConfig) : M ChatResult :=
  if continuing then continueChat (adapter p) W request config
  else createChat (adapter p) W request config.


(** The turns a call sends upstream. *)
Definition turns (continuing : bool) (request : ChatRequest) : list WireMessage :=
  if continuing then with_prior_turns request else first_turn request.

(** The request an Ollama call sends: the cloud variant resolves its own
    default target first. *)
Definition ollama_call_request (p : ProviderType) (continuing : bool)
  (request : ChatRequest) (config : ProviderConfig) (stream : bool) : Request :=
  let config' := match p with ollama_cloud => cloudConfig config | _ => config end in
  ollama_chat_request
    (or_else (baseUrl config') (js "http://localhost:11434"))
    (or_else (modelName config') (js "llama3.2"))
    (turns continuing request) config' stream.

(** The assistant turn a synchronous response ends with. *)
Definition assistant_turn (n : nat) (c : Value) (doc : option Document)
  : ResponseMessage :=
  {| rm_id := js "msg-" ++ decimal (N.of_nat n);
     rm_role := js "assistant";
     rm_content := c;
     experimental_content := doc |}.

(** An input turn as a synchronous response echoes it at index [i]. *)
Definition echoed_turn (i : nat) (m : WireMessage) : ResponseMessage :=
  {| rm_id := js "msg-" ++ decimal (N.of_nat i);
     rm_role := wire_role m;
     rm_content := JString (wire_content m);
     experimental_content := None |}.

(** The Ollama adapter, or its cloud variant with its credential given. *)
Definition ollama_family (p : ProviderType) (config : ProviderConfig) : bool :=
  match p with
  | ollama => true
  | ollama_cloud => negb (missing (apiKey config))
  | _ => false
  end.

(** The adapters whose [createChat] and [continueChat] test the API key
    themselves, and the error each raises. *)
Definition checks_credential (p : ProviderType) : bool :=
  match p with
  | ollama_cloud | llama => true
  | _ => false
  end.

Definition credential_error (p : ProviderType) : Exn :=
  match p with
  | llama => llama_key_error
  | _ => ollama_cloud_key_error
  end.

(** The Document the assistant turn of an adapter carries for the
    assistant content [c]. *)
Definition carried_document (p : ProviderType) (c : Value) : option Document :=
  match p, c with
  | (ollama | ollama_cloud), JString T =>
      Some (formatContentAsMessageBinaryFormat T)
  | _, _ => None
  end.


End Observations.

(* ================================================================== *)
(** ** Worked scenarios                                                  *)
(* ================================================================== *)

(** Concrete worlds on the reference engine, for the scenarios of the
    specification. *)
Module Scenarios.

Import Reference.

Definition no_sdk (client : ClientConfig) (c : SdkCall) : Exn + SdkResult :=
  inl (Failure (js "fetch failed")).

(** A world whose upstream answers every request with [reply]. *)
Definition world (reply : Exn + Response) : World :=
  {| upstream := fun _ => reply;
     sdk := no_sdk;
     Date_now := 1700000000000;
     Math_random_36 := js "0.4fzyo82mvyr";
     Date_toISOString := js "2023-11-14T22:13:20.000Z" |}.

(** A successful response whose body arrives in the chunks [cs]. *)
Definition streamed (cs : list (list byte)) : Response :=
  {| ok := true; status := 200; statusText := js "OK";
     text := inl (Failure (js "body used"));
     json := inl (Failure (js "body used"));
     response_body := Some {| chunks := cs; read_failure := None |} |}.

(** A response whose body is the JSON text [payload]. *)
Definition answered (success : bool) (code : N) (reason payload : jsstring)
  : Response :=
  {| ok := success; status := code; statusText := reason;
     text := inr payload;
     json := match parse payload with
             | Some v => inr v
             | None => inl SyntaxError
             end;
     response_body := None |}.

Definition config (key : option jsstring) : ProviderConfig :=
  {| baseUrl := None; apiKey := key; modelName := None;
     temperature := None; maxTokens := None |}.

Definition ask (m : jsstring) (stream : bool) (prior : option (list Message))
  : ChatRequest :=
  {| message := m; chatId := None; attachments := None;
     streaming := Some stream; messages := prior |}.

(** Scenario B: an SSE upstream sends one content event, then [[DONE]]. *)
Definition scenario_B : World :=
  world (inr (streamed
    [quoted_bytes "data: {'choices':[{'delta':{'content':'Hi'}}]}" ++ lf;
     bytes "data: [DONE]" ++ lf])).

(** An Ollama upstream streaming "Hello\n\nWorld" in two lines, the second
    cut inside its text. *)
Definition ollama_two_lines : World :=
  world (inr (streamed
    [quoted_bytes "{'model':'llama3.2','message':{'role':'assistant','content':'Hello\n\n'},'done':false}"
       ++ lf ++ quoted_bytes "{'model':'llama3.2','message':{'role':'assi";
     quoted_bytes "stant','content':'World'},'done':true}" ++ lf])).

(** Scenario A: the synchronous Ollama answer "Hello\n\nWorld". *)
Definition scenario_A : World :=
  world (inr (answered true 200 (js "OK")
    (quoted "{'model':'llama3.2','message':{'role':'assistant','content':'Hello\n\nWorld'},'done':true}"))).

(** The same answer in the shape of the chat completions API. *)
Definition completions_answer : World :=
  world (inr (answered true 200 (js "OK")
    (quoted "{'id':'c1','choices':[{'message':{'role':'assistant','content':'Hello\n\nWorld'},'finish_reason':'stop'}]}"))).

(** Scenario D: a valid line, a truncated one, a valid one. *)
Definition scenario_D_lines : list jsstring :=
  [quoted "{'message':{'role':'assistant','content':'Hel'},'done':false}";
   quoted "{'message':{'role':'assistant','content':'lo";
   quoted "{'message':{'role':'assistant','content':'lo'},'done':true}"].

Definition scenario_D_sse_lines : list jsstring :=
  [quoted "data: {'choices':[{'delta':{'content':'Hel'}}]}";
   quoted "data: {'choices':[{'delta':{'content':'lo";
   quoted "data: {'choices':[{'delta':{'content':'lo'}}]}"].

(** Scenario E: two prior turns and a new message. *)
Definition scenario_E : ChatRequest :=
  ask (js "C") false
      (Some [{| role := user; content := js "A" |};
             {| role := assistant; content := js "B" |}]).

(** Scenario E as a continuation of the upstream chat [chat_1]. *)
Definition scenario_E_chat : ChatRequest :=
  {| message := js "C"; chatId := Some (js "chat_1"); attachments := None;
     streaming := Some false;
     messages := Some [{| role := user; content := js "A" |};
                       {| role := assistant; content := js "B" |}] |}.

(** A model-listing endpoint that answers 500 with a JSON error body. *)
Definition models_unavailable : World :=
  world (inr (answered false 500 (js "Internal Server Error")
                (quoted "{'error':'model registry unavailable'}"))).

(** A v0 SDK that answers [chats.create] with a chat. *)
Definition v0_world : World :=
  {| upstream := fun _ => inl (Failure (js "fetch failed"));
     sdk := fun _ _ =>
              inr (SdkChat {| detail_id := js "chat_1";
                              detail_demo := JUndefined;
                              detail_messages := None |});
     Date_now := 1700000000000;
     Math_random_36 := js "0.4fzyo82mvyr";
     Date_toISOString := js "2023-11-14T22:13:20.000Z" |}.

(** Scenario D as a response body: the three lines in two reads, the cut
    inside the truncated line. *)
Definition scenario_D_body : ReadableBody :=
  {| chunks :=
       [quoted_bytes "{'message':{'role':'assistant','content':'Hel'},'done':false}"
          ++ lf ++ quoted_bytes "{'message':{'role':'assi";
        quoted_bytes "stant','content':'lo" ++ lf
          ++ quoted_bytes "{'message':{'role':'assistant','content':'lo'},'done':true}"
          ++ lf];
     read_failure := None |}.

Definition scenario_D_sse_body : ReadableBody :=
  {| chunks :=
       [quoted_bytes "data: {'choices':[{'delta':{'content':'Hel'}}]}"
          ++ lf ++ quoted_bytes "data: {'choices':[{'delta':{'cont";
        quoted_bytes "ent':'lo" ++ lf
          ++ quoted_bytes "data: {'choices':[{'delta':{'content':'lo'}}]}"
          ++ lf];
     read_failure := None |}.

Definition scenario_D (reader : ReadableBody) : World :=
  world (inr {| ok := true; status := 200; statusText := js "OK";
                text := inl (Failure (js "body used"));
                json := inl (Failure (js "body used"));
                response_body := Some reader |}).

(** The response a call returned, when it returned one. *)
Definition response_of (m : M ChatResult) : ChatResponse :=
  match outcome m with
  | inr (Chat r) => r
  | _ => {| id := []; response_messages := [] |}
  end.





End Scenarios.

(* ================================================================== *)
(** ** Notions of the proofs about text                                  *)
(* ================================================================== *)

(** A string of white space only. *)
Definition blank (s : jsstring) : bool := forallb isWhiteSpace s.

(** A fragment without a line feed is its own single line. *)
Definition unbroken (s : jsstring) : bool :=
  forallb (fun c => negb (c =? LF)%N) s.

(** The text a decoder yields for a whole byte sequence. *)
Definition decoded_text (d : TextDecoder.t) (payload : list byte) : jsstring :=
  snd (TextDecoder.decode d payload).

(* ================================================================== *)
(** ** Proof automation                                                  *)
(* ================================================================== *)

(** Running the monad's operations, and nothing else. *)
Ltac run :=
  cbn [bind try_catch lift perform ret throw fetch effects outcome
       fst snd app].

(** Reading the consumer's view off a trace that ends in known effects. *)
Ltac seen_outbound :=
  unfold outbound; cbn [filter on_stream];
  rewrite ?filter_app; cbn [filter on_stream app];
  rewrite ?app_nil_r; reflexivity.

(* ================================================================== *)
(** ** Notions of the further properties                                 *)
(* ================================================================== *)

(** A string with no white space at its start. *)
Definition clean_start (s : jsstring) : bool :=
  match s with
  | [] => true
  | c :: _ => negb (isWhiteSpace c)
  end.


Section FurtherNotions.

Context {engine : JSEngine}.

(** The entry [getAvailableModels] makes of a model name. *)
Definition model_info (providerType : jsstring) (n : Value) : ModelInfo :=
  {| model_id := n; model_name := n; model_provider := providerType |}.

(** The request a chat call of an adapter sends upstream, once its
    credential check has passed. *)
Definition chat_request (p : ProviderType) (continuing : bool)
  (request : ChatRequest) (config : ProviderConfig) : option Request :=
  match p with
  | v0 => None
  | ollama | ollama_cloud =>
      Some (ollama_call_request p continuing request config
              (wants_stream request))
  | lmstudio =>
      Some (lmstudio_chat_request
              (or_else (baseUrl config) (js "http://localhost:1234"))
              (or_else (modelName config) (js "local-model"))
              (turns continuing request) config (wants_stream request))
  | llama =>
      Some (llama_chat_request
              (or_else (baseUrl config) llama_default_url)
              (or_else (modelName config) (js "llama3.2-1b"))
              (match apiKey config with Some key => key | None => [] end)
              (turns continuing request) config (wants_stream request))
  end.

(** A delta frame whose Document is that of some text beginning with
    [prefix]. *)
Definition delta_extends (prefix : jsstring) (e : Effect) : Prop :=
  match e with
  | Enqueue (DeltaFrame d) =>
      exists suffix,
        d = formatContentAsMessageBinaryFormat (prefix ++ suffix)
  | _ => True
  end.

End FurtherNotions.

(* ================================================================== *)
(** * Properties                                                         *)
(* ================================================================== *)

(* ================================================================== *)
(** ** Facts about strings                                               *)
(* ================================================================== *)

Lemma jseqb_refl (s : jsstring) : jseqb s s = true.
Proof.
  induction s as [|c s IH]; simpl; [reflexivity|].
  now rewrite N.eqb_refl, IH.
Qed.

Lemma jseqb_eq (a b : jsstring) : jseqb a b = true <-> a = b.
Proof.
  split.
  - revert b. induction a as [|x a IH]; intros [|y b] H; simpl in H;
      try discriminate; [reflexivity|].
    apply andb_true_iff in H as [Hx Hr].
    apply N.eqb_eq in Hx. subst y. f_equal. now apply IH.
  - intros ->. apply jseqb_refl.
Qed.

Lemma truthy_string_nil (s : jsstring) :
  truthy_string s = negb (jseqb s []).
Proof. now destruct s. Qed.

Lemma blank_app (a b : jsstring) : blank (a ++ b) = blank a && blank b.
Proof. apply forallb_app. Qed.

Lemma blank_rev (s : jsstring) : blank (rev s) = blank s.
Proof.
  induction s as [|c s IH]; simpl; [reflexivity|].
  rewrite blank_app, IH. simpl. rewrite andb_true_r. apply andb_comm.
Qed.

Lemma trimStart_nil (s : jsstring) :
  truthy_string (trimStart s) = negb (blank s).
Proof.
  induction s as [|c s IH]; simpl; [reflexivity|].
  destruct (isWhiteSpace c); simpl; [exact IH | reflexivity].
Qed.

Lemma blank_trimStart (s : jsstring) : blank (trimStart s) = blank s.
Proof.
  induction s as [|c s IH]; simpl; [reflexivity|].
  destruct (isWhiteSpace c) eqn:Hc; simpl; [exact IH|].
  now rewrite Hc.
Qed.

Lemma truthy_rev (s : jsstring) : truthy_string (rev s) = truthy_string s.
Proof.
  destruct s as [|c s]; simpl; [reflexivity|].
  destruct (rev s ++ [c]) eqn:H; [|reflexivity].
  now destruct (rev s).
Qed.

(** [s.trim()] is the empty string exactly when [s] is white space. *)
Lemma truthy_trim (s : jsstring) : truthy_string (trim s) = negb (blank s).
Proof.
  unfold trim, trimEnd.
  now rewrite truthy_rev, trimStart_nil, blank_rev, blank_trimStart.
Qed.

Lemma startsWith_nil (s : jsstring) : startsWith s [] = true.
Proof. now destruct s. Qed.

#[local] Hint Resolve startsWith_nil : core.

Lemma startsWith_cons_inv (c a : N) (s w : jsstring) :
  startsWith (c :: s) (a :: w) = true -> a = c /\ startsWith s w = true.
Proof.
  simpl. intros H. apply andb_true_iff in H as [H1 H2].
  now apply N.eqb_eq in H1.
Qed.

(** Splitting on a separator of white space loses no ink: the pieces are
    all blank exactly when the piece in progress and the text to come are.
    [w] is the part of a matched separator still to be skipped. *)
Lemma split_from_blank (sep : jsstring) :
  sep <> [] -> blank sep = true ->
  forall (s : jsstring) (k : nat) (cur w : jsstring),
    length w = k -> blank w = true -> startsWith s w = true ->
    forallb blank (split_from sep k cur s) = blank cur && blank s.
Proof.
  intros Hne Hsep. induction s as [|c s IH]; intros k cur w Hlen Hw Hpre.
  - simpl. now rewrite andb_true_r.
  - destruct k as [|k].
    + cbn [split_from].
      destruct (startsWith (c :: s) sep) eqn:Hm.
      * destruct sep as [|a sep']; [congruence|].
        apply startsWith_cons_inv in Hm as [-> Hm].
        simpl in Hsep. apply andb_true_iff in Hsep as [Hc Hsep'].
        cbn [forallb].
        rewrite (IH (length (c :: sep') - 1) [] sep'); auto.
        -- simpl. now rewrite Hc.
        -- simpl. lia.
      * rewrite (IH 0 (cur ++ [c]) []); auto.
        rewrite blank_app. simpl. rewrite andb_true_r.
        now rewrite andb_assoc.
    + destruct w as [|a w]; [discriminate|].
      apply startsWith_cons_inv in Hpre as [-> Hpre].
      simpl in Hw. apply andb_true_iff in Hw as [Hc Hw].
      cbn [split_from]. rewrite (IH k cur w); auto.
      simpl. now rewrite Hc.
Qed.

Lemma split_blank_pieces (T : jsstring) :
  forallb blank (split NLNL T) = blank T.
Proof.
  unfold split.
  rewrite (split_from_blank (sep:=NLNL)) with (w := []); auto.
  discriminate.
Qed.

Lemma filter_nil_forallb {A : Type} (f : A -> bool) (l : list A) :
  filter f l = [] <-> forallb (fun x => negb (f x)) l = true.
Proof.
  induction l as [|x l IH]; simpl; [tauto|].
  destruct (f x); simpl; [split; discriminate | exact IH].
Qed.

(** The fallback branch of the formatter is never taken: when no
    paragraph survives the filter, the whole text is white space. *)
Lemma no_paragraph_blank (T : jsstring) :
  filter (fun p => truthy_string (trim p)) (split NLNL T) = [] ->
  truthy_string (trim T) = false.
Proof.
  intros H. rewrite truthy_trim, <- split_blank_pieces.
  apply filter_nil_forallb in H.
  replace (forallb blank (split NLNL T)) with true; [reflexivity|].
  rewrite <- H. clear H.
  induction (split NLNL T) as [|p l IH]; simpl; [reflexivity|].
  now rewrite truthy_trim, negb_involutive, IH.
Qed.

Lemma formatContent_paragraphs (T : jsstring) :
  formatContentAsMessageBinaryFormat T
  = map (fun p => (0%N, trim p))
        (filter (fun p => truthy_string (trim p)) (split NLNL T)).
Proof.
  unfold formatContentAsMessageBinaryFormat.
  destruct (filter _ (split NLNL T)) eqn:Hf; simpl; [|reflexivity].
  now rewrite (no_paragraph_blank T Hf).
Qed.

(** C3. For every text, the Content Formatter returns exactly the pieces
    between blank-line separators that are non-empty after trimming, in
    their order, each as a block [[0, trimmed text]]; and a text that is
    non-empty after trimming gives a non-empty Document. *)
Theorem C3_formatter_paragraphs (T : jsstring) :
  formatContentAsMessageBinaryFormat T = spec_paragraph_blocks T
  /\ (trim T <> [] -> formatContentAsMessageBinaryFormat T <> []).
Proof.
  split.
  - rewrite formatContent_paragraphs. unfold spec_paragraph_blocks.
    f_equal. apply filter_ext. intros p. apply truthy_string_nil.
  - intros Hink Hdoc. rewrite formatContent_paragraphs in Hdoc.
    apply map_eq_nil in Hdoc. apply no_paragraph_blank in Hdoc.
    destruct (trim T); [congruence | discriminate].
Qed.

Lemma C3_formatter_paragraphs_witness :
  formatContentAsMessageBinaryFormat (js "Hello" ++ NLNL ++ js " World ")
  = spec_paragraph_blocks (js "Hello" ++ NLNL ++ js " World ")
  /\ (trim (js "Hello" ++ NLNL ++ js " World ") <> [] ->
      formatContentAsMessageBinaryFormat (js "Hello" ++ NLNL ++ js " World ")
      <> []).
Proof. exact (C3_formatter_paragraphs (js "Hello" ++ NLNL ++ js " World ")). Defined.

Example formatter_scenario_A :
  formatContentAsMessageBinaryFormat (js "Hello" ++ NLNL ++ js "World")
  = [(0%N, js "Hello"); (0%N, js "World")].
Proof. reflexivity. Qed.

Example formatter_blank_only :
  formatContentAsMessageBinaryFormat (js " " ++ NLNL ++ js "  ") = [].
Proof. reflexivity. Qed.

(* ================================================================== *)
(** ** Decoding and framing do not depend on the chunking                *)
(* ================================================================== *)

(** Decoding a chunk cut in two is decoding it whole: the decoder carries
    its pending bytes across the cut. *)
Lemma decode_app (value1 value2 : list byte) :
  forall d : TextDecoder.t,
    TextDecoder.decode d (value1 ++ value2)
    = (fst (TextDecoder.decode (fst (TextDecoder.decode d value1)) value2),
       snd (TextDecoder.decode d value1)
       ++ snd (TextDecoder.decode (fst (TextDecoder.decode d value1)) value2)).
Proof.
  induction value1 as [|b v IH]; intros d.
  - simpl. now destruct (TextDecoder.decode d value2).
  - simpl.
    destruct (TextDecoder.process_byte (TextDecoder.decoder d) (Byte.to_N b))
      as [u cps].
    destruct (TextDecoder.serialize_all (TextDecoder.BOM_seen d) cps)
      as [seen out].
    rewrite IH.
    destruct (TextDecoder.decode _ v) as [d1 o1]. simpl.
    now rewrite app_assoc.
Qed.

Lemma split_from_not_nil (sep : jsstring) (s : jsstring) :
  forall (k : nat) (cur : jsstring), split_from sep k cur s <> [].
Proof.
  induction s as [|c s IH]; intros k cur; cbn [split_from]; [discriminate|].
  destruct k; [|apply IH].
  destruct (startsWith (c :: s) sep); [discriminate | apply IH].
Qed.

Lemma removelast_cons {A : Type} (x : A) (l : list A) :
  l <> [] -> removelast (x :: l) = x :: removelast l.
Proof. now destruct l. Qed.

Lemma last_cons {A : Type} (x d : A) (l : list A) :
  l <> [] -> last (x :: l) d = last l d.
Proof. now destruct l. Qed.

Lemma pop_last (l : list jsstring) :
  l <> [] -> or_else (pop l) [] = last l [].
Proof.
  intros Hne. unfold pop.
  destruct (exists_last Hne) as (l' & x & ->).
  rewrite rev_app_distr, last_last. simpl.
  now destruct x.
Qed.

Lemma startsWith_NL (c : N) (s : jsstring) :
  startsWith (c :: s) NL = (c =? LF)%N.
Proof.
  unfold NL. cbn [startsWith].
  rewrite startsWith_nil, andb_true_r. apply N.eqb_sym.
Qed.

(** Lines of a text cut in two: the complete lines of the first part, then
    the lines of its last fragment followed by the second part. *)
Lemma split_lines_app (a b : jsstring) :
  forall cur : jsstring,
    split_from NL 0 cur (a ++ b)
    = removelast (split_from NL 0 cur a)
      ++ split_from NL 0 (last (split_from NL 0 cur a) []) b.
Proof.
  induction a as [|c a IH]; intros cur; [reflexivity|].
  rewrite <- app_comm_cons. cbn [split_from].
  rewrite !startsWith_NL.
  destruct (c =? LF)%N.
  - cbn [length NL Nat.sub].
    rewrite removelast_cons, last_cons by apply split_from_not_nil.
    rewrite <- app_comm_cons. f_equal. apply IH.
  - apply IH.
Qed.

Lemma split_from_unbroken (s : jsstring) :
  forall cur : jsstring,
    unbroken s = true -> split_from NL 0 cur s = [cur ++ s].
Proof.
  induction s as [|c s IH]; intros cur H.
  - simpl. now rewrite app_nil_r.
  - simpl in H. apply andb_true_iff in H as [Hc Hs].
    apply negb_true_iff in Hc.
    cbn [split_from]. rewrite startsWith_NL, Hc.
    rewrite IH by assumption. now rewrite <- app_assoc.
Qed.

Lemma split_from_last_unbroken (s : jsstring) :
  forall cur : jsstring,
    unbroken cur = true ->
    unbroken (last (split_from NL 0 cur s) []) = true.
Proof.
  induction s as [|c s IH]; intros cur H; [exact H|].
  cbn [split_from]. rewrite startsWith_NL.
  destruct (c =? LF)%N eqn:Hc.
  - rewrite last_cons by apply split_from_not_nil. now apply IH.
  - apply IH. unfold unbroken. rewrite forallb_app. fold (unbroken cur).
    rewrite H. simpl. now rewrite Hc.
Qed.

Lemma split_from_carry (cur s : jsstring) :
  unbroken cur = true -> split_from NL 0 cur s = split NL (cur ++ s).
Proof.
  intros H. unfold split.
  rewrite split_lines_app, (split_from_unbroken cur []) by exact H.
  reflexivity.
Qed.

(** The lines the read loop hands over are the complete lines of the
    carry-over buffer followed by the decoded text of all bytes, however
    the bytes are cut into chunks. *)
Lemma decoded_lines_from_concat (chunks : list (list byte)) :
  forall f : Framing,
    unbroken (buffer f) = true ->
    decoded_lines_from f chunks
    = removelast
        (split NL (buffer f ++ decoded_text (text_decoder f) (concat chunks))).
Proof.
  induction chunks as [|value rest IH]; intros f Hf.
  - simpl. unfold decoded_text. simpl. rewrite app_nil_r. unfold split.
    now rewrite split_from_unbroken.
  - cbn [decoded_lines_from concat]. unfold read_lines, decoded_text.
    rewrite decode_app.
    destruct (TextDecoder.decode (text_decoder f) value) as [d text] eqn:Hd.
    cbn [fst snd].
    rewrite app_assoc. unfold split at 3. rewrite split_lines_app.
    rewrite removelast_app by apply split_from_not_nil.
    f_equal.
    assert (Hlast : unbroken (last (split_from NL 0 [] (buffer f ++ text)) [])
                    = true) by now apply split_from_last_unbroken.
    rewrite IH; cbn [buffer text_decoder];
      rewrite pop_last by apply split_from_not_nil; [|exact Hlast].
    unfold decoded_text. now rewrite split_from_carry.
Qed.

Lemma decoded_lines_concat (chunks : list (list byte)) :
  decoded_lines chunks
  = removelast (split NL (decoded_text TextDecoder.create (concat chunks))).
Proof.
  unfold decoded_lines. now rewrite decoded_lines_from_concat.
Qed.

(** *** Laws of the effect monad *)

Local Open Scope js_scope.

Section MonadLaws.

Context {engine : JSEngine}.

Lemma bind_ret_l {A B : Type} (a : A) (k : A -> M B) : bind (ret a) k = k a.
Proof. unfold bind, ret. now destruct (k a). Qed.

Lemma bind_ret_r {A : Type} (m : M A) : bind m ret = m.
Proof.
  destruct m as [t [e|a]]; simpl; [reflexivity|]. now rewrite app_nil_r.
Qed.

Lemma bind_assoc {A B C : Type} (m : M A) (k : A -> M B) (h : B -> M C) :
  bind (bind m k) h = bind m (fun a => bind (k a) h).
Proof.
  destruct m as [t [e|a]]; simpl; [reflexivity|].
  destruct (k a) as [t1 [e1|b]]; simpl; [reflexivity|].
  destruct (h b) as [t2 r2]. now rewrite app_assoc.
Qed.

Lemma bind_ext {A B : Type} (m : M A) (k k' : A -> M B) :
  (forall a, k a = k' a) -> bind m k = bind m k'.
Proof.
  intros H. destruct m as [t [e|a]]; simpl; [reflexivity|]. now rewrite H.
Qed.

Lemma for_each_app {S : Type} (handle : S -> jsstring -> M S)
  (l1 l2 : list jsstring) :
  forall st : S,
    for_each handle st (l1 ++ l2)
    = bind (for_each handle st l1) (fun st' => for_each handle st' l2).
Proof.
  induction l1 as [|l l1 IH]; intros st; cbn [for_each app].
  - now rewrite bind_ret_l.
  - rewrite bind_assoc. apply bind_ext. intros st'. apply IH.
Qed.

(** The read loop is the line handler run over the decoded lines. *)
Lemma read_chunks_lines {S : Type} (handle : S -> jsstring -> M S)
  (values : list (list byte)) :
  forall (f : Framing) (st : S),
    bind (read_chunks handle f st values) (fun r => ret (snd r))
    = for_each handle st (decoded_lines_from f values).
Proof.
  induction values as [|value rest IH]; intros f st.
  - cbn [read_chunks decoded_lines_from for_each]. now rewrite bind_ret_l.
  - cbn [read_chunks decoded_lines_from].
    destruct (read_lines f value) as [f' lines].
    rewrite bind_assoc, for_each_app.
    apply bind_ext. intros st'. apply IH.
Qed.

Lemma read_loop_lines {S : Type} (handle : S -> jsstring -> M S) (st : S)
  (reader : ReadableBody) :
  read_loop handle st reader
  = bind (for_each handle st (decoded_lines (chunks reader)))
         (fun st' => match read_failure reader with
                     | Some e => throw e
                     | None => ret st'
                     end).
Proof.
  unfold read_loop, decoded_lines.
  rewrite <- read_chunks_lines, bind_assoc.
  apply bind_ext. intros r. now rewrite bind_ret_l.
Qed.

End MonadLaws.

(** C4. For any two ways of cutting one byte payload into chunks, cuts
    inside a line or inside a multi-byte character included, the read loop
    (decode, append to the buffer, split on the line feed, keep the last
    fragment) yields the same sequence of complete lines, and so the same
    run of whatever line handler consumes them. *)
Theorem C4_chunking_independent (chunks1 chunks2 : list (list byte)) :
  concat chunks1 = concat chunks2 ->
  decoded_lines chunks1 = decoded_lines chunks2
  /\ forall (engine : JSEngine) (S : Type) (handle : S -> jsstring -> M S)
            (st : S) (failure : option Exn),
       read_loop handle st {| chunks := chunks1; read_failure := failure |}
       = read_loop handle st {| chunks := chunks2; read_failure := failure |}.
Proof.
  intros Hsame.
  assert (Hlines : decoded_lines chunks1 = decoded_lines chunks2)
    by now rewrite !decoded_lines_concat, Hsame.
  split; [exact Hlines|].
  intros engine S handle st failure.
  rewrite !read_loop_lines. cbn [chunks read_failure]. now rewrite Hlines.
Qed.

(* ================================================================== *)
(** ** Effects of composed computations                                  *)
(* ================================================================== *)

Lemma C4_chunking_independent_witness :
  concat [[x41; xc3]; [xa9; x0a; x42]; [x0a; x43]]
  = concat [[x41; xc3; xa9; x0a]; []; [x42; x0a; x43]]
  /\ decoded_lines [[x41; xc3]; [xa9; x0a; x42]; [x0a; x43]]
     = decoded_lines [[x41; xc3; xa9; x0a]; []; [x42; x0a; x43]].
Proof.
  split; [reflexivity|].
  exact (proj1 (C4_chunking_independent
                  [[x41; xc3]; [xa9; x0a; x42]; [x0a; x43]]
                  [[x41; xc3; xa9; x0a]; []; [x42; x0a; x43]] eq_refl)).
Defined.

(** A two-byte character cut by a chunk boundary is decoded whole, and
    the fragment after the last line feed is not a line. *)
Example decoded_lines_split_character :
  decoded_lines [[x41; xc3]; [xa9; x0a; x42]; [x0a; x43]]
  = [[65; 233]%N; [66]%N].
Proof. reflexivity. Qed.

Section EffectFacts.

Context {engine : JSEngine}.

Lemma effects_bind {A B : Type} (m : M A) (k : A -> M B) :
  effects (bind m k)
  = effects m ++ match outcome m with
                 | inl _ => []
                 | inr a => effects (k a)
                 end.
Proof.
  destruct m as [t [e|a]]; simpl; [now rewrite app_nil_r|].
  now destruct (k a).
Qed.

Lemma outcome_bind {A B : Type} (m : M A) (k : A -> M B) :
  outcome (bind m k)
  = match outcome m with
    | inl e => inl e
    | inr a => outcome (k a)
    end.
Proof.
  destruct m as [t [e|a]]; simpl; [reflexivity|]. now destruct (k a).
Qed.

Lemma effects_try_catch {A : Type} (m : M A) (handle : Exn -> M A) :
  effects (try_catch m handle)
  = effects m ++ match outcome m with
                 | inl e => effects (handle e)
                 | inr _ => []
                 end.
Proof.
  destruct m as [t [e|a]]; simpl; [|now rewrite app_nil_r].
  now destruct (handle e).
Qed.

Lemma outcome_try_catch {A : Type} (m : M A) (handle : Exn -> M A) :
  outcome (try_catch m handle)
  = match outcome m with
    | inl e => outcome (handle e)
    | inr a => inr a
    end.
Proof.
  destruct m as [t [e|a]]; simpl; [|reflexivity]. now destruct (handle e).
Qed.

(** A property of every effect of a line handler holds of every effect of
    the loops that run it. *)
Lemma for_each_effects {S : Type} (P : Effect -> Prop)
  (handle : S -> jsstring -> M S) :
  (forall st line, Forall P (effects (handle st line))) ->
  forall lines st, Forall P (effects (for_each handle st lines)).
Proof.
  intros Hh. induction lines as [|line rest IH]; intros st.
  - constructor.
  - cbn [for_each]. rewrite effects_bind. apply Forall_app. split.
    + apply Hh.
    + destruct (outcome (handle st line)); [constructor | apply IH].
Qed.

Lemma read_loop_effects {S : Type} (P : Effect -> Prop)
  (handle : S -> jsstring -> M S) :
  (forall st line, Forall P (effects (handle st line))) ->
  forall st reader, Forall P (effects (read_loop handle st reader)).
Proof.
  intros Hh st reader. rewrite read_loop_lines, effects_bind.
  apply Forall_app. split.
  - now apply for_each_effects.
  - destruct (outcome _); [constructor|].
    destruct (read_failure reader); constructor.
Qed.

Lemma ollama_line_effects (st : Accumulator) (line : jsstring) :
  Forall delta_or_log (effects (ollama_line st line)).
Proof.
  unfold ollama_line.
  destruct (truthy_string (trim line)); [|constructor].
  destruct (JSON_parse line) as [parsed|]; run; [|repeat constructor].
  destruct (Get parsed (js "message")) as [e|pm]; run; [repeat constructor|].
  destruct (truthy (OptGet pm (js "content"))); run; [|constructor].
  destruct (ToString (OptGet pm (js "content"))); run; repeat constructor.
Qed.

Lemma sse_line_effects (label : jsstring) (st : unit) (line : jsstring) :
  Forall text_or_log (effects (sse_line label st line)).
Proof.
  unfold sse_line.
  destruct (startsWith (trim line) (js "data: ")); [|constructor].
  destruct (jseqb _ _); [constructor|].
  destruct (JSON_parse _) as [parsed|]; run; [|repeat constructor].
  destruct (Get parsed (js "choices")) as [e|pc]; run; [repeat constructor|].
  destruct (truthy _); run; repeat constructor.
Qed.

Lemma outbound_app (a b : list Effect) :
  outbound (a ++ b) = outbound a ++ outbound b.
Proof. apply filter_app. Qed.

Lemma outbound_deltas (t : list Effect) :
  Forall delta_or_log t -> forallb is_delta (outbound t) = true.
Proof.
  induction 1 as [|e t He _ IH]; [reflexivity|].
  destruct e as [| | | [] | |]; simpl in *; tauto.
Qed.

Lemma outbound_texts (t : list Effect) :
  Forall text_or_log t -> forallb is_text (outbound t) = true.
Proof.
  induction 1 as [|e t He _ IH]; [reflexivity|].
  destruct e as [| | | [] | |]; simpl in *; tauto.
Qed.

(** A metadata frame, delta frames, then the [[DONE]] frame and the close,
    or the error: that stream has the uniform lifecycle. *)
Lemma deltas_lifecycle (chat createdAt : jsstring) (ds tail : list Effect) :
  forallb is_delta ds = true ->
  tail = [Enqueue DoneFrame; Close] \/ (exists e, tail = [ErrorStream e]) ->
  uniform_lifecycle (Enqueue (MetadataFrame chat createdAt) :: ds ++ tail)
  = true.
Proof.
  intros Hds Htail. unfold uniform_lifecycle. apply andb_true_iff. split.
  - cbn [starts_with_one_metadata is_metadata andb].
    rewrite forallb_app. apply andb_true_iff. split.
    + clear Htail. induction ds as [|d ds IH]; [reflexivity|].
      simpl in Hds. apply andb_true_iff in Hds as [Hd Hds].
      simpl. rewrite (IH Hds), andb_true_r.
      now destruct d as [| | | [] | |].
    + destruct Htail as [-> | [e ->]]; reflexivity.
  - cbn [ends_with_one_terminal is_terminal].
    clear chat createdAt.
    induction ds as [|d ds IH].
    + destruct Htail as [-> | [e ->]]; reflexivity.
    + simpl in Hds. apply andb_true_iff in Hds as [Hd Hds].
      cbn [app ends_with_one_terminal].
      destruct d as [| | | [] | |]; try discriminate. simpl. now apply IH.
Qed.

Lemma texts_lifecycle (ts tail : list Effect) :
  forallb is_text ts = true ->
  tail = [Close] \/ (exists e, tail = [ErrorStream e]) ->
  text_frames_then_end (ts ++ tail) = true
  /\ uniform_lifecycle (ts ++ tail) = false.
Proof.
  intros Hts Htail. split.
  - induction ts as [|d ts IH].
    + destruct Htail as [-> | [e ->]]; reflexivity.
    + simpl in Hts. apply andb_true_iff in Hts as [Hd Hts].
      destruct d as [| | | [] | |]; try discriminate.
      cbn [app text_frames_then_end]. now apply IH.
  - unfold uniform_lifecycle. apply andb_false_iff. left.
    destruct ts as [|d ts].
    + destruct Htail as [-> | [e ->]]; reflexivity.
    + simpl in Hts. apply andb_true_iff in Hts as [Hd _].
      now destruct d as [| | | [] | |].
Qed.

End EffectFacts.

(* ================================================================== *)
(** ** The lifecycle of the outbound streams                             *)
(* ================================================================== *)

Section Lifecycle.

Context {engine : JSEngine}.

(** What the consumer sees of an Ollama stream: the metadata frame, delta
    frames, then the [[DONE]] frame and the close, or the error. *)
Lemma ollama_stream_outbound (W : World) (base model : jsstring)
  (msgs : list WireMessage) (config : ProviderConfig) :
  exists ds tail,
    outbound (effects (OllamaProvider_streamChat W base model msgs config))
    = Enqueue (MetadataFrame (new_chat_id W (js "ollama")) (Date_toISOString W))
      :: ds ++ tail
    /\ forallb is_delta ds = true
    /\ (tail = [Enqueue DoneFrame; Close] \/ exists e, tail = [ErrorStream e]).
Proof.
  unfold OllamaProvider_streamChat. run.
  destruct (upstream W _) as [e|response]; run.
  { exists [], [ErrorStream e]. repeat split; eauto. }
  destruct (ok response); cbn [negb]; run.
  2:{ destruct (text response) as [e|errorText]; run;
        eexists [], [ErrorStream _]; repeat split; eauto. }
  unfold getReader. destruct (response_body response) as [reader|]; run.
  2:{ eexists [], [ErrorStream _]. repeat split; eauto. }
  pose proof (read_loop_effects (P:=delta_or_log) ollama_line
                ollama_line_effects
                {| fullContent := []; currentFormattedContent := [] |} reader)
    as Hloop.
  destruct (read_loop _ _ reader) as [t [e|acc]]; run; cbn [effects fst] in Hloop.
  - exists (outbound t), [ErrorStream e]. split; [|split; eauto].
    + seen_outbound.
    + now apply outbound_deltas.
  - exists (outbound t), [Enqueue DoneFrame; Close]. split; [|split; eauto].
    + seen_outbound.
    + now apply outbound_deltas.
Qed.

Lemma ollama_stream_lifecycle (W : World) (base model : jsstring)
  (msgs : list WireMessage) (config : ProviderConfig) :
  uniform_lifecycle
    (outbound (effects (OllamaProvider_streamChat W base model msgs config)))
  = true.
Proof.
  destruct (ollama_stream_outbound W base model msgs config)
    as (ds & tail & -> & Hds & Htail).
  now apply deltas_lifecycle.
Qed.

(** [streamChat] catches everything: it ends normally. *)
Lemma ollama_stream_returns (W : World) (base model : jsstring)
  (msgs : list WireMessage) (config : ProviderConfig) :
  outcome (OllamaProvider_streamChat W base model msgs config) = inr tt.
Proof.
  unfold OllamaProvider_streamChat.
  rewrite outcome_try_catch.
  destruct (outcome _) as [e|[]]; reflexivity.
Qed.

(** The streams of the SSE adapters: text frames, then the close or the
    error, and never a metadata frame. *)
Lemma lmstudio_stream_outbound (W : World) (base model : jsstring)
  (msgs : list WireMessage) (config : ProviderConfig) :
  exists ts tail,
    outbound (effects (LMStudioProvider_streamChat W base model msgs config))
    = ts ++ tail
    /\ forallb is_text ts = true
    /\ (tail = [Close] \/ exists e, tail = [ErrorStream e]).
Proof.
  unfold LMStudioProvider_streamChat. run.
  destruct (upstream W _) as [e|response]; run.
  { exists [], [ErrorStream e]. repeat split; eauto. }
  destruct (ok response); cbn [negb]; run.
  2:{ eexists [], [ErrorStream _]. repeat split; eauto. }
  unfold getReader. destruct (response_body response) as [reader|]; run.
  2:{ eexists [], [ErrorStream _]. repeat split; eauto. }
  pose proof (read_loop_effects (P:=text_or_log) _
                (sse_line_effects (js "Failed to parse LM Studio response:"))
                tt reader) as Hloop.
  destruct (read_loop _ _ reader) as [t [e|acc]]; run; cbn [effects fst] in Hloop.
  - exists (outbound t), [ErrorStream e]. split; [|split; eauto].
    + seen_outbound.
    + now apply outbound_texts.
  - exists (outbound t), [Close]. split; [|split; eauto].
    + seen_outbound.
    + now apply outbound_texts.
Qed.

Lemma llama_stream_outbound (W : World) (base model key : jsstring)
  (msgs : list WireMessage) (config : ProviderConfig) :
  exists ts tail,
    outbound (effects (LlamaProvider_streamChat W base model key msgs config))
    = ts ++ tail
    /\ forallb is_text ts = true
    /\ (tail = [Close] \/ exists e, tail = [ErrorStream e]).
Proof.
  unfold LlamaProvider_streamChat. run.
  destruct (upstream W _) as [e|response]; run.
  { exists [], [ErrorStream e]. repeat split; eauto. }
  destruct (ok response); cbn [negb]; run.
  2:{ destruct (text response) as [e|errorText]; run;
        eexists [], [ErrorStream _]; repeat split; eauto. }
  unfold getReader. destruct (response_body response) as [reader|]; run.
  2:{ eexists [], [ErrorStream _]. repeat split; eauto. }
  pose proof (read_loop_effects (P:=text_or_log) _
                (sse_line_effects (js "Failed to parse Llama response:"))
                tt reader) as Hloop.
  destruct (read_loop _ _ reader) as [t [e|acc]]; run; cbn [effects fst] in Hloop.
  - exists (outbound t), [ErrorStream e]. split; [|split; eauto].
    + seen_outbound.
    + now apply outbound_texts.
  - exists (outbound t), [Close]. split; [|split; eauto].
    + seen_outbound.
    + now apply outbound_texts.
Qed.

End Lifecycle.

(* ================================================================== *)
(** ** C1: lifecycle of a streaming call                                 *)
(* ================================================================== *)

Section StreamingCalls.

Context {engine : JSEngine}.

Lemma effects_then_ret {A B : Type} (m : M A) (b : B) :
  effects (bind m (fun _ => ret b)) = effects m.
Proof.
  rewrite effects_bind. destruct (outcome m); apply app_nil_r.
Qed.

Lemma effects_then_ret' {A B : Type} (m : M A) (f : A -> B) :
  effects (bind m (fun a => ret (f a))) = effects m.
Proof.
  rewrite effects_bind. destruct (outcome m); apply app_nil_r.
Qed.

Lemma sync_is_no_stream (m : M ChatResponse) :
  outcome (bind m (fun r => ret (Chat r))) <> inr ReadableStream.
Proof.
  rewrite outcome_bind. destruct (outcome m); discriminate.
Qed.

Lemma ollama_call_lifecycle (continuing : bool) (W : World)
  (request : ChatRequest) (config : ProviderConfig) :
  outcome (invoke continuing ollama W request config) = inr ReadableStream ->
  uniform_lifecycle
    (outbound (effects (invoke continuing ollama W request config))) = true.
Proof.
  destruct continuing; cbn [invoke adapter createChat continueChat OllamaProvider];
    unfold OllamaProvider_continueChat, OllamaProvider_createChat;
    (destruct (wants_stream request);
     [ intros _; rewrite effects_then_ret; apply ollama_stream_lifecycle
     | intros H; now apply sync_is_no_stream in H ]).
Qed.

Lemma sse_stream_lifecycle (t : list Effect) :
  (exists ts tail,
      outbound t = ts ++ tail
      /\ forallb is_text ts = true
      /\ (tail = [Close] \/ exists e, tail = [ErrorStream e])) ->
  text_frames_then_end (outbound t) = true
  /\ uniform_lifecycle (outbound t) = false.
Proof.
  intros (ts & tail & -> & Hts & Htail). now apply texts_lifecycle.
Qed.

Lemma lmstudio_call_lifecycle (continuing : bool) (W : World)
  (request : ChatRequest) (config : ProviderConfig) :
  outcome (invoke continuing lmstudio W request config) = inr ReadableStream ->
  text_frames_then_end
    (outbound (effects (invoke continuing lmstudio W request config))) = true
  /\ uniform_lifecycle
       (outbound (effects (invoke continuing lmstudio W request config)))
     = false.
Proof.
  destruct continuing;
    cbn [invoke adapter createChat continueChat LMStudioProvider];
    unfold LMStudioProvider_continueChat, LMStudioProvider_createChat;
    (destruct (wants_stream request);
     [ intros _; rewrite effects_then_ret; apply sse_stream_lifecycle,
                                            lmstudio_stream_outbound
     | intros H; now apply sync_is_no_stream in H ]).
Qed.

Lemma llama_call_lifecycle (continuing : bool) (W : World)
  (request : ChatRequest) (config : ProviderConfig) :
  outcome (invoke continuing llama W request config) = inr ReadableStream ->
  text_frames_then_end
    (outbound (effects (invoke continuing llama W request config))) = true
  /\ uniform_lifecycle
       (outbound (effects (invoke continuing llama W request config)))
     = false.
Proof.
  destruct continuing;
    cbn [invoke adapter createChat continueChat LlamaProvider];
    unfold LlamaProvider_continueChat, LlamaProvider_createChat;
    (destruct (apiKey config) as [key|]; [|discriminate]);
    (destruct (truthy_string key); cbn [negb]; [|discriminate]);
    (destruct (wants_stream request);
     [ intros _; rewrite effects_then_ret; apply sse_stream_lifecycle,
                                            llama_stream_outbound
     | intros H; now apply sync_is_no_stream in H ]).
Qed.

Lemma ollama_cloud_call_lifecycle (continuing : bool) (W : World)
  (request : ChatRequest) (config : ProviderConfig) :
  outcome (invoke continuing ollama_cloud W request config)
  = inr ReadableStream ->
  uniform_lifecycle
    (outbound (effects (invoke continuing ollama_cloud W request config)))
  = true.
Proof.
  destruct continuing;
    cbn [invoke adapter createChat continueChat OllamaCloudProvider];
    unfold OllamaCloudProvider_continueChat, OllamaCloudProvider_createChat;
    (destruct (missing _); [discriminate|]);
    [ apply (ollama_call_lifecycle true) | apply (ollama_call_lifecycle false) ].
Qed.

Lemma v0_builds_no_stream (continuing : bool) (W : World)
  (request : ChatRequest) (config : ProviderConfig) :
  outcome (invoke continuing v0 W request config) <> inr ReadableStream.
Proof.
  destruct continuing;
    cbn [invoke adapter createChat continueChat V0Provider];
    unfold V0Provider_continueChat, V0Provider_createChat.
  - destruct (given (chatId request)); [|discriminate].
    rewrite outcome_bind. unfold call. cbn [outcome snd].
    destruct (sdk W _ _) as [e|[|detail]]; discriminate.
  - rewrite outcome_bind. unfold call. cbn [outcome snd].
    destruct (sdk W _ _) as [e|[|detail]]; discriminate.
Qed.

End StreamingCalls.

(** C1 (amended). Every streaming call of the Ollama adapter and of its
    cloud variant puts on the outbound stream exactly one metadata event,
    first, and ends it with exactly one of done or error, with no event
    after it.  A streaming call of the LM Studio or the Llama adapter puts
    no metadata event on the stream: its stream is text frames followed by
    the close or the error.  The v0 adapter builds no stream of its own. *)
Theorem C1_streaming_lifecycle {engine : JSEngine} (continuing : bool)
  (p : ProviderType) (W : World) (request : ChatRequest)
  (config : ProviderConfig) :
  outcome (invoke continuing p W request config) = inr ReadableStream ->
  let out := outbound (effects (invoke continuing p W request config)) in
  match p with
  | ollama | ollama_cloud => uniform_lifecycle out = true
  | lmstudio | llama =>
      text_frames_then_end out = true /\ uniform_lifecycle out = false
  | v0 => False
  end.
Proof.
  intros H. destruct p; cbn zeta.
  - now apply v0_builds_no_stream in H.
  - now apply ollama_call_lifecycle.
  - now apply ollama_cloud_call_lifecycle.
  - now apply lmstudio_call_lifecycle.
  - now apply llama_call_lifecycle.
Qed.

Lemma C1_streaming_lifecycle_witness :
  uniform_lifecycle
    (outbound (effects (invoke false ollama Scenarios.ollama_two_lines
                          (Scenarios.ask (js "hi") true None)
                          (Scenarios.config None))))
  = true.
Proof.
  apply (@C1_streaming_lifecycle Reference.engine false ollama
           Scenarios.ollama_two_lines (Scenarios.ask (js "hi") true None)
           (Scenarios.config None)).
  reflexivity.
Defined.

(** Scenario B on the Llama adapter: the consumer sees one text frame and
    the close; no metadata event opens the stream and no done event ends
    it. *)
Lemma C1_counterexample_llama_stream :
  outcome (invoke false llama Scenarios.scenario_B
             (Scenarios.ask (js "hi") true None)
             (Scenarios.config (Some (js "key"))))
  = inr ReadableStream
  /\ outbound (effects (invoke false llama Scenarios.scenario_B
                          (Scenarios.ask (js "hi") true None)
                          (Scenarios.config (Some (js "key")))))
     = [Enqueue (TextFrame (JString (js "Hi"))); Close]
  /\ uniform_lifecycle
       (outbound (effects (invoke false llama Scenarios.scenario_B
                             (Scenarios.ask (js "hi") true None)
                             (Scenarios.config (Some (js "key"))))))
     = false.
Proof. repeat split. Qed.

(* ================================================================== *)
(** ** C2: the streamed Document and the synchronous one                 *)
(* ================================================================== *)

Section CrossMode.

Context {engine : JSEngine}.








End CrossMode.

Section CrossModeCalls.

Context {engine : JSEngine}.


(** A call on the Ollama family is [streamChat] or [syncChat] on the
    resolved target, model and turns. *)
Lemma ollama_family_invoke (continuing : bool) (p : ProviderType) (W : World)
  (request : ChatRequest) (config : ProviderConfig) :
  ollama_family p config = true ->
  let config' :=
    match p with ollama_cloud => cloudConfig config | _ => config end in
  let base := or_else (baseUrl config') (js "http://localhost:11434") in
  let model := or_else (modelName config') (js "llama3.2") in
  invoke continuing p W request config
  = if wants_stream request
    then bind (OllamaProvider_streamChat W base model
                 (turns continuing request) config')
              (fun _ => ret ReadableStream)
    else bind (OllamaProvider_syncChat W base model
                 (turns continuing request) config')
              (fun r => ret (Chat r)).
Proof.
  intros Hfam.
  destruct p; try discriminate; destruct continuing;
    cbn [invoke adapter createChat continueChat OllamaProvider
         OllamaCloudProvider turns];
    unfold OllamaCloudProvider_continueChat, OllamaCloudProvider_createChat,
      OllamaProvider_continueChat, OllamaProvider_createChat;
    cbn [ollama_family] in Hfam;
    try (apply negb_true_iff in Hfam; cbn [cloudConfig apiKey]; rewrite Hfam);
    reflexivity.
Qed.





End CrossModeCalls.

(* ================================================================== *)
(** ** Synchronous responses                                             *)
(* ================================================================== *)

Section SyncResponses.

Context {engine : JSEngine}.

Lemma call_formatContent_inv (x : Value) (d : Document) :
  call_formatContent x = inr d ->
  exists T, x = JString T /\ d = formatContentAsMessageBinaryFormat T.
Proof.
  destruct x; simpl; try discriminate.
  intros [= <-]. now eexists.
Qed.

(** A successful [syncChat] of the Ollama adapter: one request, an
    answer with a string under [message.content], the turns echoed and
    the assistant turn with its Document. *)
Lemma ollama_sync_success (W : World) (base model : jsstring)
  (msgs : list WireMessage) (config : ProviderConfig) (r : ChatResponse) :
  outcome (OllamaProvider_syncChat W base model msgs config) = inr r ->
  exists response data m T,
    effects (OllamaProvider_syncChat W base model msgs config)
    = [Fetch (ollama_chat_request base model msgs config false)]
    /\ upstream W (ollama_chat_request base model msgs config false)
       = inr response
    /\ ok response = true
    /\ json response = inr data
    /\ Get data (js "message") = inr m
    /\ Get m (js "content") = inr (JString T)
    /\ r = {| id := new_chat_id W (js "ollama");
              response_messages :=
                echo msgs
                ++ [assistant_turn (length msgs) (JString T)
                      (Some (formatContentAsMessageBinaryFormat T))] |}.
Proof.
  unfold OllamaProvider_syncChat. run.
  destruct (upstream W _) as [e|response] eqn:Hup; run; [discriminate|].
  destruct (ok response) eqn:Hok; cbn [negb]; run.
  2:{ destruct (text response); run; discriminate. }
  destruct (json response) as [e|data] eqn:Hjson; run; [discriminate|].
  destruct (Get data (js "message")) as [e|m] eqn:Hm; run; [discriminate|].
  destruct (Get m (js "content")) as [e|c] eqn:Hc; run; [discriminate|].
  destruct (call_formatContent c) as [e|d] eqn:Hd; run; [discriminate|].
  apply call_formatContent_inv in Hd as (T & -> & ->).
  intros [= <-]. exists response, data, m, T. repeat split; auto.
Qed.

Lemma lmstudio_sync_success (W : World) (base model : jsstring)
  (msgs : list WireMessage) (config : ProviderConfig) (r : ChatResponse) :
  outcome (LMStudioProvider_syncChat W base model msgs config) = inr r ->
  exists response data c,
    effects (LMStudioProvider_syncChat W base model msgs config)
    = [Fetch (lmstudio_chat_request base model msgs config false)]
    /\ upstream W (lmstudio_chat_request base model msgs config false)
       = inr response
    /\ ok response = true
    /\ json response = inr data
    /\ first_choice_content data = inr c
    /\ r = {| id := new_chat_id W (js "lmstudio");
              response_messages :=
                echo msgs ++ [assistant_turn (length msgs) c None] |}.
Proof.
  unfold LMStudioProvider_syncChat. run.
  destruct (upstream W _) as [e|response] eqn:Hup; run; [discriminate|].
  destruct (ok response) eqn:Hok; cbn [negb]; run; [|discriminate].
  destruct (json response) as [e|data] eqn:Hjson; run; [discriminate|].
  destruct (first_choice_content data) as [e|c] eqn:Hc; run; [discriminate|].
  intros [= <-]. exists response, data, c. repeat split; auto.
Qed.

Lemma llama_sync_success (W : World) (base model key : jsstring)
  (msgs : list WireMessage) (config : ProviderConfig) (r : ChatResponse) :
  outcome (LlamaProvider_syncChat W base model key msgs config) = inr r ->
  exists response data c,
    effects (LlamaProvider_syncChat W base model key msgs config)
    = [Fetch (llama_chat_request base model key msgs config false)]
    /\ upstream W (llama_chat_request base model key msgs config false)
       = inr response
    /\ ok response = true
    /\ json response = inr data
    /\ first_choice_content data = inr c
    /\ r = {| id := new_chat_id W (js "llama");
              response_messages :=
                echo msgs ++ [assistant_turn (length msgs) c None] |}.
Proof.
  unfold LlamaProvider_syncChat. run.
  destruct (upstream W _) as [e|response] eqn:Hup; run; [discriminate|].
  destruct (ok response) eqn:Hok; cbn [negb]; run.
  2:{ destruct (text response); run; discriminate. }
  destruct (json response) as [e|data] eqn:Hjson; run; [discriminate|].
  destruct (first_choice_content data) as [e|c] eqn:Hc; run; [discriminate|].
  intros [= <-]. exists response, data, c. repeat split; auto.
Qed.

(** The echo keeps the turns, in order, under their ordinal names. *)
Lemma echo_from_length (msgs : list WireMessage) :
  forall idx, length (echo_from idx msgs) = length msgs.
Proof.
  induction msgs as [|m msgs IH]; intros idx; simpl; [reflexivity|].
  now rewrite IH.
Qed.

Lemma echo_from_nth (msgs : list WireMessage) :
  forall (idx : nat) (i : nat) (m : WireMessage),
    nth_error msgs i = Some m ->
    nth_error (echo_from (N.of_nat idx) msgs) i = Some (echoed_turn (idx + i) m).
Proof.
  induction msgs as [|m0 msgs IH]; intros idx i m H.
  - now destruct i.
  - destruct i as [|i]; simpl in H.
    + injection H as ->. simpl. unfold echoed_turn.
      now rewrite Nat.add_0_r.
    + cbn [echo_from nth_error].
      replace (N.of_nat idx + 1)%N with (N.of_nat (S idx)) by lia.
      rewrite (IH (S idx) i m H). f_equal. f_equal. lia.
Qed.

Lemma echo_nth (msgs : list WireMessage) (i : nat) (m : WireMessage) :
  nth_error msgs i = Some m ->
  nth_error (echo msgs) i = Some (echoed_turn i m).
Proof. intros H. apply (echo_from_nth msgs 0 i H). Qed.

Lemma echo_length (msgs : list WireMessage) : length (echo msgs) = length msgs.
Proof. apply echo_from_length. Qed.

(** A response built as echo followed by the assistant turn. *)
Lemma echo_then_assistant (msgs : list WireMessage) (a : ResponseMessage) :
  length (echo msgs ++ [a]) = S (length msgs)
  /\ (forall i m, nth_error msgs i = Some m ->
                  nth_error (echo msgs ++ [a]) i = Some (echoed_turn i m))
  /\ nth_error (echo msgs ++ [a]) (length msgs) = Some a.
Proof.
  repeat split.
  - rewrite length_app, echo_length. simpl. lia.
  - intros i m H. rewrite nth_error_app1.
    + now apply echo_nth.
    + rewrite echo_length. apply nth_error_Some. congruence.
  - rewrite nth_error_app2; rewrite echo_length; [|lia].
    now rewrite Nat.sub_diag.
Qed.

End SyncResponses.

Section CrossModeTheorem.

Context {engine : JSEngine}.



End CrossModeTheorem.



Example ollama_two_lines_stream :
  outbound (effects (invoke false ollama Scenarios.ollama_two_lines
                       (Scenarios.ask (js "hi") true None)
                       (Scenarios.config None)))
  = [Enqueue (MetadataFrame (js "ollama-1700000000000-82mvyr")
                            (js "2023-11-14T22:13:20.000Z"));
     Enqueue (DeltaFrame [(0%N, js "Hello")]);
     Enqueue (DeltaFrame [(0%N, js "Hello"); (0%N, js "World")]);
     Enqueue DoneFrame;
     Close].
Proof. reflexivity. Qed.





(* ================================================================== *)
(** ** C5: a line that fails to parse                                    *)
(* ================================================================== *)

Section MalformedLines.

Context {engine : JSEngine}.



Lemma bind_after_log {A B : Type} (e : Effect) (a : A) (k : A -> M B) :
  bind ([e], inr a) k = bind (perform e) (fun _ => k a).
Proof. reflexivity. Qed.










End MalformedLines.



(** Scenario D on both wire formats, whole streams: two extractions, one
    diagnostic, and the stream runs to its end. *)
Example scenario_D_ollama_stream :
  effects (invoke false ollama (Scenarios.scenario_D Scenarios.scenario_D_body)
             (Scenarios.ask (js "hi") true None) (Scenarios.config None))
  = [Enqueue (MetadataFrame (js "ollama-1700000000000-82mvyr")
                            (js "2023-11-14T22:13:20.000Z"));
     Fetch (ollama_chat_request (js "http://localhost:11434") (js "llama3.2")
              [user_turn (js "hi")] (Scenarios.config None) true);
     Enqueue (DeltaFrame [(0%N, js "Hel")]);
     ConsoleError (js "Failed to parse Ollama response:") SyntaxError;
     Enqueue (DeltaFrame [(0%N, js "Hello")]);
     Enqueue DoneFrame;
     Close].
Proof. reflexivity. Qed.

Example scenario_D_lmstudio_stream :
  effects (invoke false lmstudio
             (Scenarios.scenario_D Scenarios.scenario_D_sse_body)
             (Scenarios.ask (js "hi") true None) (Scenarios.config None))
  = [Fetch (lmstudio_chat_request (js "http://localhost:1234")
              (js "local-model") [user_turn (js "hi")]
              (Scenarios.config None) true);
     Enqueue (TextFrame (JString (js "Hel")));
     ConsoleError (js "Failed to parse LM Studio response:") SyntaxError;
     Enqueue (TextFrame (JString (js "lo")));
     Close].
Proof. reflexivity. Qed.

(* ================================================================== *)
(** ** C6: a missing credential                                          *)
(* ================================================================== *)

(** C6 (amended). [createChat] and [continueChat] of the Ollama Cloud and
    Llama adapters, both marked in the catalog as requiring an API key,
    raise a configuration error that names the missing key, and perform
    nothing at all before it, when the configuration has no API key.  The
    v0 adapter, marked likewise, tests no key: [createChat] hands the
    call to the SDK with a client configuration that has none. *)
Theorem C6_credential_fail_fast {engine : JSEngine} (W : World)
  (request : ChatRequest) (config : ProviderConfig) :
  missing (apiKey config) = true ->
  (forall (continuing : bool) (p : ProviderType),
      checks_credential p = true ->
      catalog_requires_key p = true
      /\ invoke continuing p W request config = ([], inl (credential_error p)))
  /\ catalog_requires_key v0 = true
  /\ effects (invoke false v0 W request config)
     = [Sdk {| client_baseUrl := given (baseUrl config);
               client_apiKey := None |}
            (chats_create (message request)
               (Some (if wants_stream request then experimental_stream
                      else sync))
               (attachments_member request))].
Proof.
  intros Hmiss. split; [|split; [reflexivity|]].
  - intros continuing p Hp. split; [now destruct p|].
    destruct p; try discriminate; destruct continuing;
      cbn [invoke adapter createChat continueChat OllamaCloudProvider
           LlamaProvider credential_error];
      unfold OllamaCloudProvider_continueChat, OllamaCloudProvider_createChat,
        LlamaProvider_continueChat, LlamaProvider_createChat;
      cbn [cloudConfig apiKey]; try (rewrite Hmiss; reflexivity);
      unfold missing in Hmiss;
      (destruct (apiKey config) as [key|]; [rewrite Hmiss|]; reflexivity).
  - cbn [invoke adapter createChat V0Provider].
    unfold V0Provider_createChat, call, clientConfig.
    rewrite effects_bind. cbn [effects fst outcome snd].
    replace (given (apiKey config)) with (@None jsstring).
    + destruct (sdk W _ _); reflexivity.
    + unfold missing in Hmiss. unfold given.
      destruct (apiKey config) as [key|]; [|reflexivity].
      apply negb_true_iff in Hmiss. now rewrite Hmiss.
Qed.

Lemma C6_credential_fail_fast_witness :
  missing (apiKey (Scenarios.config None)) = true
  /\ invoke true llama Scenarios.scenario_A Scenarios.scenario_E
       (Scenarios.config None)
     = ([], inl llama_key_error).
Proof.
  split; [reflexivity|].
  apply (proj1 (@C6_credential_fail_fast Reference.engine Scenarios.scenario_A
                  Scenarios.scenario_E (Scenarios.config None) eq_refl)
               true llama eq_refl).
Defined.

(** Scenario C on the v0 adapter: no API key in the configuration, and
    the call goes out through the SDK; the adapter raises nothing. *)
Lemma C6_counterexample_v0 :
  catalog_requires_key v0 = true
  /\ apiKey (Scenarios.config None) = None
  /\ invoke false v0 Scenarios.v0_world (Scenarios.ask (js "hi") false None)
       (Scenarios.config None)
     = ([Sdk {| client_baseUrl := None; client_apiKey := None |}
             (chats_create (js "hi") (Some sync) None)],
        inr (UpstreamChat (js "chat_1") JUndefined None)).
Proof. repeat split. Qed.

(* ================================================================== *)
(** ** C7: the synchronous response                                      *)
(* ================================================================== *)

(** C7 (amended). A non-streaming [createChat] or [continueChat] that
    succeeds on the Ollama, Ollama Cloud, LM Studio or Llama adapter
    returns the n input turns in order under the identifiers [msg-0] to
    [msg-(n-1)], then one assistant turn [msg-n] whose content is the
    assistant text of the upstream answer.  On the Ollama adapters that
    text is a string and the turn carries its Document; on the LM Studio
    and Llama adapters the turn carries no Document. *)
Theorem C7_sync_response_shape {engine : JSEngine} (continuing : bool)
  (p : ProviderType) (W : World) (request : ChatRequest)
  (config : ProviderConfig) (r : ChatResponse) :
  outcome (invoke continuing p W request config) = inr (Chat r) ->
  let input := turns continuing request in
  length (response_messages r) = S (length input)
  /\ (forall i m,
         nth_error input i = Some m ->
         nth_error (response_messages r) i = Some (echoed_turn i m))
  /\ exists req answer data c,
       requests (effects (invoke continuing p W request config)) = [req]
       /\ upstream W req = inr answer
       /\ json answer = inr data
       /\ assistant_text p data = inr c
       /\ nth_error (response_messages r) (length input)
          = Some (assistant_turn (length input) c (carried_document p c))
       /\ match p with
          | ollama | ollama_cloud => exists T, c = JString T
          | lmstudio | llama => carried_document p c = None
          | v0 => False
          end.
Proof.
  intros Hr input. subst input.
  assert (Hshape :
    exists req answer data c doc,
      requests (effects (invoke continuing p W request config)) = [req]
      /\ upstream W req = inr answer
      /\ json answer = inr data
      /\ assistant_text p data = inr c
      /\ response_messages r
         = echo (turns continuing request)
           ++ [assistant_turn (length (turns continuing request)) c doc]
      /\ doc = carried_document p c
      /\ match p with
         | ollama | ollama_cloud => exists T, c = JString T
         | lmstudio | llama => carried_document p c = None
         | v0 => False
         end).
  { destruct p.
    - exfalso. revert Hr. destruct continuing;
        cbn [invoke adapter createChat continueChat V0Provider];
        unfold V0Provider_continueChat, V0Provider_createChat, call;
        try (destruct (given (chatId request)); [|discriminate]);
        rewrite outcome_bind; cbn [outcome snd];
        (destruct (sdk W _ _) as [e|[|detail]]; discriminate).
    - rewrite (ollama_family_invoke continuing ollama W request config eq_refl)
        in Hr |- *.
      destruct (wants_stream request).
      + rewrite outcome_bind in Hr. destruct (outcome _); discriminate.
      + rewrite outcome_bind in Hr. rewrite effects_then_ret'.
        destruct (outcome (OllamaProvider_syncChat _ _ _ _ _)) as [e|r'] eqn:Hs;
          [discriminate|].
        injection Hr as ->.
        destruct (ollama_sync_success _ _ _ _ _ Hs)
          as (answer & data & m & T & -> & Hup & _ & Hj & Hm & Hc & ->).
        exists (ollama_chat_request
                  (or_else (baseUrl config) (js "http://localhost:11434"))
                  (or_else (modelName config) (js "llama3.2"))
                  (turns continuing request) config false),
          answer, data, (JString T),
          (Some (formatContentAsMessageBinaryFormat T)).
        cbn [assistant_text]. rewrite Hm.
        repeat split; eauto.
    - assert (Hfam : ollama_family ollama_cloud config = true).
      { cbn [ollama_family]. revert Hr. destruct continuing;
          cbn [invoke adapter createChat continueChat OllamaCloudProvider];
          unfold OllamaCloudProvider_continueChat,
            OllamaCloudProvider_createChat; cbn [cloudConfig apiKey];
          destruct (missing (apiKey config)); try discriminate; reflexivity. }
      rewrite (ollama_family_invoke continuing ollama_cloud W request config
                 Hfam) in Hr |- *.
      destruct (wants_stream request).
      + rewrite outcome_bind in Hr. destruct (outcome _); discriminate.
      + rewrite outcome_bind in Hr. rewrite effects_then_ret'.
        destruct (outcome (OllamaProvider_syncChat _ _ _ _ _)) as [e|r'] eqn:Hs;
          [discriminate|].
        injection Hr as ->.
        destruct (ollama_sync_success _ _ _ _ _ Hs)
          as (answer & data & m & T & -> & Hup & _ & Hj & Hm & Hc & ->).
        eexists _, answer, data, (JString T),
          (Some (formatContentAsMessageBinaryFormat T)).
        cbn [assistant_text]. rewrite Hm.
        repeat split; eauto.
    - revert Hr. destruct continuing;
        cbn [invoke adapter createChat continueChat LMStudioProvider turns];
        unfold LMStudioProvider_continueChat, LMStudioProvider_createChat;
        (destruct (wants_stream request); rewrite outcome_bind;
         [ destruct (outcome _); discriminate |]);
        rewrite effects_then_ret';
        (destruct (outcome (LMStudioProvider_syncChat _ _ _ _ _))
           as [e|r'] eqn:Hs; [discriminate|]);
        intros [= ->];
        destruct (lmstudio_sync_success _ _ _ _ _ Hs)
          as (answer & data & c & -> & Hup & _ & Hj & Hc & ->);
        eexists _, answer, data, c, None; cbn [assistant_text];
        repeat split; eauto.
    - revert Hr. destruct continuing;
        cbn [invoke adapter createChat continueChat LlamaProvider turns];
        unfold LlamaProvider_continueChat, LlamaProvider_createChat;
        (destruct (apiKey config) as [key|]; [|discriminate]);
        (destruct (truthy_string key); cbn [negb]; [|discriminate]);
        (destruct (wants_stream request); rewrite outcome_bind;
         [ destruct (outcome _); discriminate |]);
        rewrite effects_then_ret';
        (destruct (outcome (LlamaProvider_syncChat _ _ _ _ _ _))
           as [e|r'] eqn:Hs; [discriminate|]);
        intros [= ->];
        destruct (llama_sync_success _ _ _ _ _ _ Hs)
          as (answer & data & c & -> & Hup & _ & Hj & Hc & ->);
        eexists _, answer, data, c, None; cbn [assistant_text];
        repeat split; eauto. }
  destruct Hshape as (req & answer & data & c & doc & Hreq & Hup & Hj & Hc
                      & Hmsgs & -> & Hp).
  rewrite Hmsgs.
  destruct (echo_then_assistant (turns continuing request)
              (assistant_turn (length (turns continuing request)) c
                 (carried_document p c)))
    as (Hlen & Hecho & Hlast).
  split; [exact Hlen|]. split; [exact Hecho|].
  exists req, answer, data, c. repeat split; auto.
Qed.

Lemma C7_sync_response_shape_witness :
  outcome (invoke true ollama Scenarios.scenario_A Scenarios.scenario_E
             (Scenarios.config None))
  = inr (Chat (Scenarios.response_of
                 (invoke true ollama Scenarios.scenario_A Scenarios.scenario_E
                    (Scenarios.config None))))
  /\ length (response_messages
               (Scenarios.response_of
                  (invoke true ollama Scenarios.scenario_A
                     Scenarios.scenario_E (Scenarios.config None))))
     = 4.
Proof.
  split; [reflexivity|].
  apply (@C7_sync_response_shape Reference.engine true ollama
           Scenarios.scenario_A Scenarios.scenario_E (Scenarios.config None)
           (Scenarios.response_of
              (invoke true ollama Scenarios.scenario_A Scenarios.scenario_E
                 (Scenarios.config None)))
           eq_refl).
Defined.

(** Scenario A: the Ollama adapter answers with the text and its
    two-block Document. *)
Example scenario_A_response :
  outcome (invoke false ollama Scenarios.scenario_A
             (Scenarios.ask (js "hi") false None) (Scenarios.config None))
  = inr (Chat
      {| id := js "ollama-1700000000000-82mvyr";
         response_messages :=
           [echoed_turn 0 (user_turn (js "hi"));
            assistant_turn 1 (JString (js "Hello" ++ NLNL ++ js "World"))
              (Some [(0%N, js "Hello"); (0%N, js "World")])] |}).
Proof. reflexivity. Qed.

(** The answer of scenario A in the chat completions shape, on the LM
    Studio adapter: the assistant turn has the text and no Document,
    though the Content Formatter gives that text two blocks. *)
Lemma C7_counterexample_lmstudio :
  outcome (invoke false lmstudio Scenarios.completions_answer
             (Scenarios.ask (js "hi") false None) (Scenarios.config None))
  = inr (Chat
      {| id := js "lmstudio-1700000000000-82mvyr";
         response_messages :=
           [echoed_turn 0 (user_turn (js "hi"));
            assistant_turn 1 (JString (js "Hello" ++ NLNL ++ js "World"))
              None] |})
  /\ formatContentAsMessageBinaryFormat (js "Hello" ++ NLNL ++ js "World")
     = [(0%N, js "Hello"); (0%N, js "World")].
Proof. split; reflexivity. Qed.

(* ================================================================== *)
(** ** C8: the turns [continueChat] sends                                *)
(* ================================================================== *)

Section Continuation.

Context {engine : JSEngine}.

Lemma with_prior_turns_spec (request : ChatRequest) :
  with_prior_turns request
  = map wire (prior_turns request) ++ [user_turn (message request)].
Proof. reflexivity. Qed.

Lemma requests_app (a b : list Effect) :
  requests (a ++ b) = requests a ++ requests b.
Proof.
  induction a as [|e a IH]; [reflexivity|].
  destruct e; simpl; now rewrite ?IH.
Qed.

Lemma no_request (P : Effect -> Prop) (t : list Effect) :
  (forall e, P e -> match e with Fetch _ => False | _ => True end) ->
  Forall P t -> requests t = [].
Proof.
  intros HP. induction 1 as [|e t He _ IH]; [reflexivity|].
  apply HP in He. destruct e; simpl; tauto.
Qed.

Lemma delta_or_log_no_fetch (e : Effect) :
  delta_or_log e -> match e with Fetch _ => False | _ => True end.
Proof. now destruct e. Qed.

Lemma text_or_log_no_fetch (e : Effect) :
  text_or_log e -> match e with Fetch _ => False | _ => True end.
Proof. now destruct e. Qed.

(** Each [streamChat] and [syncChat] issues exactly one request. *)
Lemma ollama_stream_requests (W : World) (base model : jsstring)
  (msgs : list WireMessage) (config : ProviderConfig) :
  requests (effects (OllamaProvider_streamChat W base model msgs config))
  = [ollama_chat_request base model msgs config true].
Proof.
  unfold OllamaProvider_streamChat. run.
  destruct (upstream W _) as [e|response]; run; [reflexivity|].
  destruct (ok response); cbn [negb]; run.
  2:{ destruct (text response); reflexivity. }
  unfold getReader. destruct (response_body response) as [reader|]; run;
    [|reflexivity].
  pose proof (read_loop_effects (P:=delta_or_log) ollama_line
                ollama_line_effects
                {| fullContent := []; currentFormattedContent := [] |} reader)
    as Hloop.
  apply (no_request delta_or_log_no_fetch) in Hloop.
  destruct (read_loop _ _ reader) as [t [e|acc]]; run;
    cbn [effects fst] in Hloop; cbn [requests];
    rewrite !requests_app, Hloop; reflexivity.
Qed.

Lemma ollama_sync_requests (W : World) (base model : jsstring)
  (msgs : list WireMessage) (config : ProviderConfig) :
  requests (effects (OllamaProvider_syncChat W base model msgs config))
  = [ollama_chat_request base model msgs config false].
Proof.
  unfold OllamaProvider_syncChat. run.
  destruct (upstream W _) as [e|response]; run; [reflexivity|].
  destruct (ok response); cbn [negb]; run.
  2:{ destruct (text response); reflexivity. }
  destruct (json response) as [e|data]; run; [reflexivity|].
  destruct (Get data _) as [e|m]; run; [reflexivity|].
  destruct (Get m _) as [e|c]; run; [reflexivity|].
  destruct (call_formatContent c); reflexivity.
Qed.

Lemma lmstudio_stream_requests (W : World) (base model : jsstring)
  (msgs : list WireMessage) (config : ProviderConfig) :
  requests (effects (LMStudioProvider_streamChat W base model msgs config))
  = [lmstudio_chat_request base model msgs config true].
Proof.
  unfold LMStudioProvider_streamChat. run.
  destruct (upstream W _) as [e|response]; run; [reflexivity|].
  destruct (ok response); cbn [negb]; run; [|reflexivity].
  unfold getReader. destruct (response_body response) as [reader|]; run;
    [|reflexivity].
  pose proof (read_loop_effects (P:=text_or_log) _
                (sse_line_effects (js "Failed to parse LM Studio response:"))
                tt reader) as Hloop.
  apply (no_request text_or_log_no_fetch) in Hloop.
  destruct (read_loop _ _ reader) as [t [e|acc]]; run;
    cbn [effects fst] in Hloop; cbn [requests];
    rewrite !requests_app, Hloop; reflexivity.
Qed.

Lemma lmstudio_sync_requests (W : World) (base model : jsstring)
  (msgs : list WireMessage) (config : ProviderConfig) :
  requests (effects (LMStudioProvider_syncChat W base model msgs config))
  = [lmstudio_chat_request base model msgs config false].
Proof.
  unfold LMStudioProvider_syncChat. run.
  destruct (upstream W _) as [e|response]; run; [reflexivity|].
  destruct (ok response); cbn [negb]; run; [|reflexivity].
  destruct (json response) as [e|data]; run; [reflexivity|].
  destruct (first_choice_content data); reflexivity.
Qed.

Lemma llama_stream_requests (W : World) (base model key : jsstring)
  (msgs : list WireMessage) (config : ProviderConfig) :
  requests (effects (LlamaProvider_streamChat W base model key msgs config))
  = [llama_chat_request base model key msgs config true].
Proof.
  unfold LlamaProvider_streamChat. run.
  destruct (upstream W _) as [e|response]; run; [reflexivity|].
  destruct (ok response); cbn [negb]; run.
  2:{ destruct (text response); reflexivity. }
  unfold getReader. destruct (response_body response) as [reader|]; run;
    [|reflexivity].
  pose proof (read_loop_effects (P:=text_or_log) _
                (sse_line_effects (js "Failed to parse Llama response:"))
                tt reader) as Hloop.
  apply (no_request text_or_log_no_fetch) in Hloop.
  destruct (read_loop _ _ reader) as [t [e|acc]]; run;
    cbn [effects fst] in Hloop; cbn [requests];
    rewrite !requests_app, Hloop; reflexivity.
Qed.

Lemma llama_sync_requests (W : World) (base model key : jsstring)
  (msgs : list WireMessage) (config : ProviderConfig) :
  requests (effects (LlamaProvider_syncChat W base model key msgs config))
  = [llama_chat_request base model key msgs config false].
Proof.
  unfold LlamaProvider_syncChat. run.
  destruct (upstream W _) as [e|response]; run; [reflexivity|].
  destruct (ok response); cbn [negb]; run.
  2:{ destruct (text response); reflexivity. }
  destruct (json response) as [e|data]; run; [reflexivity|].
  destruct (first_choice_content data); reflexivity.
Qed.

End Continuation.

(** C8 (amended). Every upstream request of a [continueChat] call on the
    Ollama, Ollama Cloud, LM Studio or Llama adapter carries as its message
    list the prior turns of the request, in their order, followed by the
    new message as a user turn; the call makes one such request, or none
    when the adapter refuses the configuration for its missing API key.
    The v0 adapter sends no message list: it makes no request of its own,
    and its one SDK call carries the chat identifier and the new message,
    not the prior turns. *)
Theorem C8_continue_sends_history {engine : JSEngine} (p : ProviderType)
  (W : World) (request : ChatRequest) (config : ProviderConfig) :
  map request_messages
      (requests (effects (invoke true p W request config)))
  = match p with
    | v0 => []
    | _ =>
        if checks_credential p && missing (apiKey config) then []
        else [Some (map wire (prior_turns request)
                    ++ [user_turn (message request)])]
    end
  /\ sdk_calls (effects (invoke true v0 W request config))
     = match given (chatId request) with
       | Some chat =>
           [(clientConfig config,
             chats_sendMessage chat (message request)
               (if wants_stream request then Some experimental_stream
                else None)
               (attachments_member request))]
       | None => []
       end.
Proof.
  split.
  - destruct p;
      cbn [invoke adapter continueChat V0Provider OllamaProvider
           OllamaCloudProvider LMStudioProvider LlamaProvider
           checks_credential andb].
    + unfold V0Provider_continueChat, call.
      destruct (given (chatId request)); [|reflexivity].
      rewrite effects_bind. cbn [effects fst outcome snd].
      destruct (sdk W _ _); reflexivity.
    + unfold OllamaProvider_continueChat.
      destruct (wants_stream request);
        rewrite ?effects_then_ret, ?effects_then_ret',
          ?ollama_stream_requests, ?ollama_sync_requests; reflexivity.
    + unfold OllamaCloudProvider_continueChat. cbn [cloudConfig apiKey].
      destruct (missing (apiKey config)); [reflexivity|].
      unfold OllamaProvider_continueChat.
      destruct (wants_stream request);
        rewrite ?effects_then_ret, ?effects_then_ret',
          ?ollama_stream_requests, ?ollama_sync_requests; reflexivity.
    + unfold LMStudioProvider_continueChat.
      destruct (wants_stream request);
        rewrite ?effects_then_ret, ?effects_then_ret',
          ?lmstudio_stream_requests, ?lmstudio_sync_requests; reflexivity.
    + unfold LlamaProvider_continueChat, missing.
      destruct (apiKey config) as [key|]; [|reflexivity].
      destruct (truthy_string key); cbn [negb]; [|reflexivity].
      destruct (wants_stream request);
        rewrite ?effects_then_ret, ?effects_then_ret',
          ?llama_stream_requests, ?llama_sync_requests; reflexivity.
  - cbn [invoke adapter continueChat V0Provider].
    unfold V0Provider_continueChat, call.
    destruct (given (chatId request)); [|reflexivity].
    rewrite effects_bind. cbn [effects fst outcome snd].
    destruct (sdk W _ _); reflexivity.
Qed.

(** Scenario E on the v0 adapter: prior turns A and B, new message C.
    Nothing the adapter sends has the list [A, B, C]: it issues no request
    and its SDK call carries the chat identifier and C alone. *)
Lemma C8_counterexample_v0 :
  prior_turns Scenarios.scenario_E_chat
  = [{| role := user; content := js "A" |};
     {| role := assistant; content := js "B" |}]
  /\ effects (invoke true v0 Scenarios.v0_world Scenarios.scenario_E_chat
                (Scenarios.config None))
     = [Sdk {| client_baseUrl := None; client_apiKey := None |}
            (chats_sendMessage (js "chat_1") (js "C") None None)]
  /\ map request_messages
         (requests (effects (invoke true v0 Scenarios.v0_world
                               Scenarios.scenario_E_chat
                               (Scenarios.config None))))
     = [].
Proof. repeat split. Qed.

(** Scenario E on the Llama adapter. *)
Example scenario_E_llama :
  map request_messages
      (requests (effects (invoke true llama Scenarios.completions_answer
                            Scenarios.scenario_E
                            (Scenarios.config (Some (js "key"))))))
  = [Some [{| wire_role := js "user"; wire_content := js "A" |};
           {| wire_role := js "assistant"; wire_content := js "B" |};
           {| wire_role := js "user"; wire_content := js "C" |}]].
Proof. reflexivity. Qed.

(* ================================================================== *)
(** ** C9 and C10: model listing                                         *)
(* ================================================================== *)

Section ModelListing.

Context {engine : JSEngine}.

(** The request [OllamaProvider.listModels] makes. *)
Lemma ollama_listModels_requests (W : World) (config : ProviderConfig) :
  requests (effects (OllamaProvider_listModels W config))
  = [{| url := or_else (baseUrl config) (js "http://localhost:11434")
               ++ js "/api/tags";
        method := GET;
        headers := if (0 <? length (authorization (apiKey config)))%nat
                   then Some (authorization (apiKey config)) else None;
        body := None |}].
Proof.
  unfold OllamaProvider_listModels. run.
  destruct (upstream W _) as [e|response]; run; [reflexivity|].
  destruct (ok response); cbn [negb]; run.
  2:{ destruct (text response); reflexivity. }
  destruct (json response) as [e|data]; run; [reflexivity|].
  destruct (Get data _) as [e|v]; run; [reflexivity|].
  destruct (optional_map_get v _); reflexivity.
Qed.

(** [listModels] of the Ollama adapter returns a list whatever happens,
    and the fallback list whenever the request fails, the status is not
    a success, or the body is not JSON. *)
Lemma ollama_listModels_returns (W : World) (config : ProviderConfig) :
  exists models, outcome (OllamaProvider_listModels W config) = inr models.
Proof.
  unfold OllamaProvider_listModels. run.
  destruct (upstream W _) as [e|response]; run; [eauto|].
  destruct (ok response); cbn [negb]; run.
  2:{ destruct (text response); run; eauto. }
  destruct (json response) as [e|data]; run; [eauto|].
  destruct (Get data _) as [e|v]; run; [eauto|].
  destruct (optional_map_get v _); run; eauto.
Qed.

Lemma ollama_listModels_fallback (W : World) (config : ProviderConfig) :
  let req :=
    {| url := or_else (baseUrl config) (js "http://localhost:11434")
              ++ js "/api/tags";
       method := GET;
       headers := if (0 <? length (authorization (apiKey config)))%nat
                  then Some (authorization (apiKey config)) else None;
       body := None |} in
  match upstream W req with
  | inl _ => True
  | inr response =>
      ok response = false \/ exists e, json response = inl e
  end ->
  outcome (OllamaProvider_listModels W config) = inr ollama_fallback_models.
Proof.
  intros req. subst req. unfold OllamaProvider_listModels. run.
  destruct (upstream W _) as [e|response]; run; [reflexivity|].
  intros [Hok | [e He]].
  - rewrite Hok. cbn [negb]. run. destruct (text response); reflexivity.
  - destruct (ok response); cbn [negb]; run.
    + rewrite He. reflexivity.
    + destruct (text response); reflexivity.
Qed.

Lemma lmstudio_listModels_returns (W : World) (config : ProviderConfig) :
  exists models, outcome (LMStudioProvider_listModels W config) = inr models.
Proof.
  unfold LMStudioProvider_listModels. run.
  destruct (upstream W _) as [e|response]; run; [eauto|].
  destruct (json response) as [e|data]; run; [eauto|].
  destruct (Get data _) as [e|v]; run; [eauto|].
  destruct (optional_map_get v _); run; eauto.
Qed.

(** No [listModels] raises. *)
Lemma listModels_returns (p : ProviderType) (W : World)
  (config : ProviderConfig) :
  exists models, outcome (listModels (adapter p) W config) = inr models.
Proof.
  destruct p; cbn [adapter listModels V0Provider OllamaProvider
                   OllamaCloudProvider LMStudioProvider LlamaProvider].
  - eexists. reflexivity.
  - apply ollama_listModels_returns.
  - apply ollama_listModels_returns.
  - apply lmstudio_listModels_returns.
  - eexists. reflexivity.
Qed.

Lemma or_else_truthy (o : option jsstring) (d : jsstring) :
  truthy_string d = true -> truthy_string (or_else o d) = true.
Proof.
  intros Hd. unfold or_else. destruct o as [s|]; [|exact Hd].
  destruct (truthy_string s) eqn:Hs; [exact Hs | exact Hd].
Qed.

Lemma or_else_idem (o : option jsstring) (d d' : jsstring) :
  truthy_string d = true -> or_else (Some (or_else o d)) d' = or_else o d.
Proof.
  intros Hd. unfold or_else at 1. now rewrite or_else_truthy.
Qed.

End ModelListing.

(** C9 at its failing input.  The model-listing endpoint answers 500 with
    a JSON error body.  The LM Studio adapter does not look at the status:
    it reads the body, finds no [data] member and returns the empty list
    without a diagnostic; the Ollama adapter, which tests [response.ok],
    logs the failure and returns its fallback list. *)
Theorem C9_lmstudio_error_status_empty_list :
  listModels LMStudioProvider Scenarios.models_unavailable
    (Scenarios.config None)
  = ([Fetch {| url := js "http://localhost:1234/v1/models";
               method := GET; headers := None; body := None |}],
     inr [])
  /\ outcome (listModels OllamaProvider Scenarios.models_unavailable
                (Scenarios.config None))
     = inr ollama_fallback_models.
Proof. split; reflexivity. Qed.

(** C10. With no API key in the configuration, [listModels] of the Ollama
    Cloud adapter makes no credential check: it sends one request without
    an Authorization header to [/api/tags] of the configured target, which
    is [https://ollama.com] unless the configuration overrides it, and
    returns a model list without raising; yet the catalog marks the
    provider as requiring a key, and [createChat] and [continueChat]
    refuse the same configuration. *)
Theorem C10_cloud_listModels_unauthenticated {engine : JSEngine} (W : World)
  (config : ProviderConfig) :
  apiKey config = None ->
  requests (effects (listModels OllamaCloudProvider W config))
  = [{| url := or_else (baseUrl config) (js "https://ollama.com")
               ++ js "/api/tags";
        method := GET; headers := None; body := None |}]
  /\ (baseUrl config = None ->
      requests (effects (listModels OllamaCloudProvider W config))
      = [{| url := js "https://ollama.com/api/tags";
            method := GET; headers := None; body := None |}])
  /\ (exists models,
         outcome (listModels OllamaCloudProvider W config) = inr models)
  /\ catalog_requires_key ollama_cloud = true
  /\ forall (continuing : bool) (request : ChatRequest),
       invoke continuing ollama_cloud W request config
       = ([], inl ollama_cloud_key_error).
Proof.
  intros Hkey.
  assert (Hreq :
    requests (effects (listModels OllamaCloudProvider W config))
    = [{| url := or_else (baseUrl config) (js "https://ollama.com")
                 ++ js "/api/tags";
          method := GET; headers := None; body := None |}]).
  { cbn [listModels OllamaCloudProvider].
    unfold OllamaCloudProvider_listModels.
    rewrite ollama_listModels_requests. cbn [cloudConfig baseUrl apiKey].
    rewrite Hkey, or_else_idem by reflexivity. reflexivity. }
  split; [exact Hreq|]. split; [|split; [|split]].
  - intros Hbase. rewrite Hreq, Hbase. reflexivity.
  - apply (listModels_returns ollama_cloud).
  - reflexivity.
  - intros continuing request.
    destruct continuing;
      cbn [invoke adapter createChat continueChat OllamaCloudProvider];
      unfold OllamaCloudProvider_continueChat, OllamaCloudProvider_createChat;
      cbn [cloudConfig apiKey]; now rewrite Hkey.
Qed.

Lemma C10_cloud_listModels_unauthenticated_witness :
  apiKey (Scenarios.config None) = None
  /\ requests (effects (listModels OllamaCloudProvider
                          Scenarios.models_unavailable (Scenarios.config None)))
     = [{| url := js "https://ollama.com/api/tags";
           method := GET; headers := None; body := None |}].
Proof.
  split; [reflexivity|].
  exact (proj1 (@C10_cloud_listModels_unauthenticated Reference.engine
                  Scenarios.models_unavailable (Scenarios.config None)
                  eq_refl)).
Defined.

(* ================================================================== *)
(** * Further properties of the adapters                                 *)
(* ================================================================== *)

(** ** Model listing *)

(** X1. No [listModels] raises: whatever the upstream does, every adapter
    returns a list. *)
Theorem X1_listModels_never_raises {engine : JSEngine} (p : ProviderType)
  (W : World) (config : ProviderConfig) :
  exists models, outcome (listModels (adapter p) W config) = inr models.
Proof. apply listModels_returns. Qed.

(** X2. [OllamaProvider.listModels] logs one diagnostic and returns its
    four fallback names when the request is rejected, when the status is
    not a success (the error then quotes the status and the body text), and
    when the body of a successful response is not JSON. *)
Theorem X2_ollama_listModels_fallback {engine : JSEngine} (W : World)
  (config : ProviderConfig) :
  let req :=
    {| url := or_else (baseUrl config) (js "http://localhost:11434")
              ++ js "/api/tags";
       method := GET;
       headers := if (0 <? length (authorization (apiKey config)))%nat
                  then Some (authorization (apiKey config)) else None;
       body := None |} in
  let label := js "Failed to fetch Ollama models:" in
  (forall e,
      upstream W req = inl e ->
      OllamaProvider_listModels W config
      = ([Fetch req; ConsoleError label e], inr ollama_fallback_models))
  /\ (forall response errorText,
         upstream W req = inr response ->
         ok response = false ->
         text response = inr errorText ->
         OllamaProvider_listModels W config
         = ([Fetch req;
             ConsoleError label
               (Error (js "Failed to fetch models: "
                       ++ decimal (status response) ++ js " " ++ errorText))],
            inr ollama_fallback_models))
  /\ (forall response e,
         upstream W req = inr response ->
         ok response = true ->
         json response = inl e ->
         OllamaProvider_listModels W config
         = ([Fetch req; ConsoleError label e], inr ollama_fallback_models)).
Proof.
  intros req label. subst req label. repeat split.
  - intros e Hup. unfold OllamaProvider_listModels. run. now rewrite Hup.
  - intros response errorText Hup Hok Htext.
    unfold OllamaProvider_listModels. run. rewrite Hup. run.
    rewrite Hok. cbn [negb]. run. now rewrite Htext.
  - intros response e Hup Hok Hjson.
    unfold OllamaProvider_listModels. run. rewrite Hup. run.
    rewrite Hok. cbn [negb]. run. now rewrite Hjson.
Qed.

Lemma X2_ollama_listModels_fallback_witness :
  upstream Scenarios.models_unavailable
    {| url := js "http://localhost:11434/api/tags"; method := GET;
       headers := None; body := None |}
  = inr (Scenarios.answered false 500 (js "Internal Server Error")
           (Reference.quoted "{'error':'model registry unavailable'}"))
  /\ outcome (OllamaProvider_listModels Scenarios.models_unavailable
                (Scenarios.config None))
     = inr ollama_fallback_models.
Proof.
  split; [reflexivity|].
  rewrite (proj1 (proj2 (@X2_ollama_listModels_fallback Reference.engine
                           Scenarios.models_unavailable
                           (Scenarios.config None)))
             (Scenarios.answered false 500 (js "Internal Server Error")
                (Reference.quoted "{'error':'model registry unavailable'}"))
             (Reference.quoted "{'error':'model registry unavailable'}")
             eq_refl eq_refl eq_refl).
  reflexivity.
Defined.

(** X3. [LMStudioProvider.listModels] sends one request without headers to
    [/v1/models] of its target; it logs one diagnostic and returns
    [["local-model"]] when the request is rejected or the body is not JSON,
    and returns the empty list, silently, when the body has no [data]
    member. *)
Theorem X3_lmstudio_listModels_paths {engine : JSEngine} (W : World)
  (config : ProviderConfig) :
  let req :=
    {| url := or_else (baseUrl config) (js "http://localhost:1234")
              ++ js "/v1/models";
       method := GET; headers := None; body := None |} in
  let label := js "Failed to fetch LM Studio models:" in
  (forall e,
      upstream W req = inl e ->
      LMStudioProvider_listModels W config
      = ([Fetch req; ConsoleError label e], inr lmstudio_fallback_models))
  /\ (forall response e,
         upstream W req = inr response ->
         json response = inl e ->
         LMStudioProvider_listModels W config
         = ([Fetch req; ConsoleError label e], inr lmstudio_fallback_models))
  /\ (forall response fields,
         upstream W req = inr response ->
         json response = inr (JObject fields) ->
         own_property (js "data") fields = JUndefined ->
         LMStudioProvider_listModels W config = ([Fetch req], inr [])).
Proof.
  intros req label. subst req label. repeat split.
  - intros e Hup. unfold LMStudioProvider_listModels. run. now rewrite Hup.
  - intros response e Hup Hjson.
    unfold LMStudioProvider_listModels. run. rewrite Hup. run.
    now rewrite Hjson.
  - intros response fields Hup Hjson Hdata.
    unfold LMStudioProvider_listModels. run. rewrite Hup. run.
    rewrite Hjson. run. cbn [Get]. run. now rewrite Hdata.
Qed.

Lemma X3_lmstudio_listModels_paths_witness :
  upstream (Scenarios.world (inl (Failure (js "fetch failed"))))
    {| url := js "http://localhost:1234/v1/models"; method := GET;
       headers := None; body := None |}
  = inl (Failure (js "fetch failed"))
  /\ outcome (LMStudioProvider_listModels
                (Scenarios.world (inl (Failure (js "fetch failed"))))
                (Scenarios.config None))
     = inr [JString (js "local-model")].
Proof.
  split; [reflexivity|].
  rewrite (proj1 (@X3_lmstudio_listModels_paths Reference.engine
                    (Scenarios.world (inl (Failure (js "fetch failed"))))
                    (Scenarios.config None))
             (Failure (js "fetch failed")) eq_refl).
  reflexivity.
Defined.

(** ** The provider factory *)

Lemma provider_id_injective (p q : ProviderType) :
  jseqb (provider_id p) (provider_id q) = ProviderType_eqb p q.
Proof. destruct p, q; reflexivity. Qed.

Lemma getProvider_known {engine : JSEngine} (p : ProviderType) :
  getProvider (provider_id p) = inr (adapter p).
Proof. now destruct p. Qed.

Lemma getProvider_unknown {engine : JSEngine} (type : jsstring) :
  (forall p, provider_id p <> type) ->
  getProvider type = inl (Error (js "Provider " ++ type ++ js " not found")).
Proof.
  intros Hnot. unfold getProvider, providers. cbn [find fst snd].
  assert (Hoff : forall p, jseqb (provider_id p) type = false).
  { intros p. destruct (jseqb (provider_id p) type) eqn:H; [|reflexivity].
    apply jseqb_eq in H. now apply Hnot in H. }
  now rewrite (Hoff v0), (Hoff ollama), (Hoff ollama_cloud),
    (Hoff lmstudio), (Hoff llama).
Qed.

(** X4. [ProviderFactory.getProvider] returns, for the identifier of each
    of the five provider types, the adapter registered for it, whose [name]
    is that type; for any other identifier it raises
    [Provider <id> not found]. *)
Theorem X4_getProvider_lookup {engine : JSEngine} :
  (forall p : ProviderType,
      getProvider (provider_id p) = inr (adapter p)
      /\ name (adapter p) = p)
  /\ (forall type : jsstring,
         (forall p, provider_id p <> type) ->
         getProvider type
         = inl (Error (js "Provider " ++ type ++ js " not found"))).
Proof.
  split.
  - intros p. split; [apply getProvider_known | now destruct p].
  - apply getProvider_unknown.
Qed.

Lemma X4_getProvider_lookup_witness :
  (forall p, provider_id p <> js "openai")
  /\ @getProvider Reference.engine (js "openai")
     = inl (Error (js "Provider openai not found")).
Proof.
  assert (H : forall p, provider_id p <> js "openai")
    by (intros p; destruct p; discriminate).
  split; [exact H|].
  exact (proj2 (@X4_getProvider_lookup Reference.engine) (js "openai") H).
Defined.

(** X5. [ProviderFactory.getAvailableModels] raises for an unknown
    identifier before anything is requested, and otherwise never raises:
    it returns the names [listModels] gave, in their order, each as id and
    name of an entry tagged with the provider identifier. *)
Theorem X5_getAvailableModels {engine : JSEngine} (W : World)
  (config : ProviderConfig) :
  (forall type : jsstring,
      (forall p, provider_id p <> type) ->
      getAvailableModels W type config
      = ([], inl (Error (js "Provider " ++ type ++ js " not found"))))
  /\ (forall p : ProviderType,
         exists models,
           outcome (listModels (adapter p) W config) = inr models
           /\ getAvailableModels W (provider_id p) config
              = (effects (listModels (adapter p) W config),
                 inr (map (model_info (provider_id p)) models))).
Proof.
  split.
  - intros type Hnot. unfold getAvailableModels.
    now rewrite (getProvider_unknown Hnot).
  - intros p. destruct (listModels_returns p W config) as [models Hm].
    exists models. split; [exact Hm|].
    unfold getAvailableModels.
    rewrite getProvider_known. run.
    destruct (listModels (adapter p) W config) as [t r].
    cbn [outcome snd] in Hm. subst r. run.
    now rewrite app_nil_r.
Qed.

Lemma X5_getAvailableModels_witness :
  (forall p, provider_id p <> js "openai")
  /\ getAvailableModels Scenarios.models_unavailable (js "openai")
       (Scenarios.config None)
     = ([], inl (Error (js "Provider openai not found"))).
Proof.
  assert (H : forall p, provider_id p <> js "openai")
    by (intros p; destruct p; discriminate).
  split; [exact H|].
  exact (proj1 (@X5_getAvailableModels Reference.engine
                  Scenarios.models_unavailable (Scenarios.config None))
               (js "openai") H).
Defined.

(** ** The v0 adapter *)

Section V0Facts.

Context {engine : JSEngine}.

Lemma own_property_app (key : jsstring) (a b : list (jsstring * Value)) :
  own_property key (a ++ b)
  = fold_left (fun found kv => if jseqb (fst kv) key then snd kv else found)
              b (own_property key a).
Proof. unfold own_property. apply fold_left_app. Qed.

End V0Facts.

(** X6. [V0Provider.continueChat] without a chat identifier (absent or
    empty) raises [Chat ID is required for continuing chat] before the SDK
    is called; with one, it makes exactly one [sendMessage] call carrying
    that identifier and the new message, and never the prior turns. *)
Theorem X6_v0_continue_needs_chat_id {engine : JSEngine} (W : World)
  (request : ChatRequest) (config : ProviderConfig) :
  (given (chatId request) = None ->
   V0Provider_continueChat W request config
   = ([], inl (Error (js "Chat ID is required for continuing chat"))))
  /\ (forall chat,
         given (chatId request) = Some chat ->
         effects (V0Provider_continueChat W request config)
         = [Sdk (clientConfig config)
                (chats_sendMessage chat (message request)
                   (if wants_stream request then Some experimental_stream
                    else None)
                   (attachments_member request))]).
Proof.
  split.
  - intros H. unfold V0Provider_continueChat. now rewrite H.
  - intros chat H. unfold V0Provider_continueChat, call. rewrite H.
    rewrite effects_bind. cbn [effects fst outcome snd].
    destruct (sdk W _ _); reflexivity.
Qed.

Lemma X6_v0_continue_needs_chat_id_witness :
  given (chatId Scenarios.scenario_E) = None
  /\ V0Provider_continueChat Scenarios.v0_world Scenarios.scenario_E
       (Scenarios.config None)
     = ([], inl (Error (js "Chat ID is required for continuing chat"))).
Proof.
  split; [reflexivity|].
  exact (proj1 (@X6_v0_continue_needs_chat_id Reference.engine
                  Scenarios.v0_world Scenarios.scenario_E
                  (Scenarios.config None)) eq_refl).
Defined.

(** X7. [mapV0Response] keeps the chat identifier, the demo and the number
    and order of the messages, and changes the value of no member of any
    message: what a message had under a name, [experimental_content]
    included, the reshaped message has under that name. *)
Theorem X7_mapV0Response_keeps_members {engine : JSEngine}
  (detail : ChatDetail) :
  exists msgs',
    mapV0Response detail
    = UpstreamChat (detail_id detail) (detail_demo detail) msgs'
    /\ match detail_messages detail, msgs' with
       | Some msgs, Some out =>
           length out = length msgs
           /\ forall i msg,
                nth_error msgs i = Some msg ->
                exists msg',
                  nth_error out i = Some msg'
                  /\ forall key, own_property key msg' = own_property key msg
       | None, None => True
       | _, _ => False
       end.
Proof.
  unfold mapV0Response. eexists. split; [reflexivity|].
  destruct (detail_messages detail) as [msgs|]; [|exact I].
  split; [apply length_map|].
  intros i msg Hi. eexists. split.
  - rewrite nth_error_map, Hi. reflexivity.
  - intros key. rewrite own_property_app. cbn [fold_left fst snd].
    destruct (jseqb (js "experimental_content") key) eqn:Hk; [|reflexivity].
    apply jseqb_eq in Hk. now subst key.
Qed.

(** ** The Content Formatter *)

Lemma trimStart_clean (s : jsstring) : clean_start (trimStart s) = true.
Proof.
  induction s as [|c s IH]; [reflexivity|]. simpl.
  destruct (isWhiteSpace c) eqn:Hc; [exact IH|]. simpl. now rewrite Hc.
Qed.

Lemma trimStart_fixed (s : jsstring) : clean_start s = true -> trimStart s = s.
Proof.
  destruct s as [|c s]; [reflexivity|]. simpl.
  now destruct (isWhiteSpace c).
Qed.

(** [trimStart] drops a prefix. *)
Lemma trimStart_suffix (s : jsstring) : exists w, s = w ++ trimStart s.
Proof.
  induction s as [|c s [w IH]]; [now exists []|]. simpl.
  destruct (isWhiteSpace c).
  - exists (c :: w). simpl. now f_equal.
  - now exists [].
Qed.

Lemma trimEnd_clean_start (s : jsstring) :
  clean_start s = true -> clean_start (trimEnd s) = true.
Proof.
  intros H. unfold trimEnd.
  destruct (trimStart_suffix (rev s)) as [w Hw].
  apply (f_equal (@rev N)) in Hw. rewrite rev_involutive, rev_app_distr in Hw.
  destruct (rev (trimStart (rev s))) as [|c t]; [reflexivity|].
  rewrite Hw in H. exact H.
Qed.

Lemma trim_idempotent (s : jsstring) : trim (trim s) = trim s.
Proof.
  unfold trim at 1.
  rewrite trimStart_fixed
    by (unfold trim; apply trimEnd_clean_start, trimStart_clean).
  unfold trim, trimEnd. rewrite rev_involutive.
  rewrite (trimStart_fixed (trimStart (rev (trimStart s))))
    by apply trimStart_clean.
  reflexivity.
Qed.

(** X8. Every block the Content Formatter returns has block type 0 and a
    text that is non-empty and has no white space at either end (trimming
    it again changes nothing); the Document is empty exactly when the text
    is white space only. *)
Theorem X8_formatter_blocks (T : jsstring) :
  Forall (fun block : Block =>
            fst block = 0%N
            /\ snd block <> []
            /\ trim (snd block) = snd block)
         (formatContentAsMessageBinaryFormat T)
  /\ (formatContentAsMessageBinaryFormat T = [] <-> blank T = true).
Proof.
  rewrite formatContent_paragraphs. split.
  - apply Forall_forall. intros block Hin.
    apply in_map_iff in Hin as (piece & <- & Hin).
    apply filter_In in Hin as [_ Hink].
    cbn [fst snd]. repeat split.
    + intros Hnil. now rewrite Hnil in Hink.
    + apply trim_idempotent.
  - split.
    + intros H. apply map_eq_nil in H. apply no_paragraph_blank in H.
      rewrite truthy_trim in H. now apply negb_false_iff in H.
    + intros H.
      assert (Hall : forallb blank (split NLNL T) = true)
        by now rewrite split_blank_pieces.
      rewrite forallb_forall in Hall.
      replace (filter _ (split NLNL T)) with (@nil jsstring); [reflexivity|].
      symmetry. apply filter_nil_forallb. apply forallb_forall.
      intros piece Hin. rewrite truthy_trim, (Hall piece Hin). reflexivity.
Qed.

(** ** The Ollama read loop *)

Section Accumulation.

Context {engine : JSEngine}.

(** One line: the handler ends normally, the accumulated text only grows
    at its end, and a delta frame it sends is the Document of a text that
    begins with the text accumulated before. *)
Lemma ollama_line_grows (st : Accumulator) (line : jsstring) :
  exists st' suffix,
    outcome (ollama_line st line) = inr st'
    /\ fullContent st' = fullContent st ++ suffix
    /\ Forall (delta_extends (fullContent st)) (effects (ollama_line st line)).
Proof.
  unfold ollama_line.
  destruct (truthy_string (trim line)).
  2:{ exists st, []. rewrite app_nil_r. repeat split. constructor. }
  destruct (JSON_parse line) as [parsed|]; run.
  2:{ exists st, []. rewrite app_nil_r. repeat split.
      repeat constructor. }
  destruct (Get parsed (js "message")) as [e|pm]; run.
  { exists st, []. rewrite app_nil_r. repeat split. repeat constructor. }
  destruct (truthy (OptGet pm (js "content"))); run.
  2:{ exists st, []. rewrite app_nil_r. repeat split. constructor. }
  destruct (ToString (OptGet pm (js "content"))) as [e|piece]; run.
  { exists st, []. rewrite app_nil_r. repeat split. repeat constructor. }
  eexists _, piece. repeat split. repeat constructor.
  now exists piece.
Qed.

Lemma delta_extends_longer (prefix more : jsstring) (e : Effect) :
  delta_extends (prefix ++ more) e -> delta_extends prefix e.
Proof.
  destruct e as [| | | [] | |]; simpl; auto.
  intros [suffix ->]. exists (more ++ suffix). now rewrite app_assoc.
Qed.

Lemma for_each_ollama_grows (lines : list jsstring) :
  forall st : Accumulator,
    exists st' suffix,
      outcome (for_each ollama_line st lines) = inr st'
      /\ fullContent st' = fullContent st ++ suffix
      /\ Forall (delta_extends (fullContent st))
                (effects (for_each ollama_line st lines)).
Proof.
  induction lines as [|line rest IH]; intros st.
  - exists st, []. rewrite app_nil_r. repeat split. constructor.
  - cbn [for_each].
    destruct (ollama_line_grows st line) as (st1 & s1 & Ho1 & Hf1 & He1).
    destruct (IH st1) as (st2 & s2 & Ho2 & Hf2 & He2).
    exists st2, (s1 ++ s2).
    rewrite outcome_bind, effects_bind, Ho1. repeat split.
    + exact Ho2.
    + now rewrite Hf2, Hf1, app_assoc.
    + apply Forall_app. split; [exact He1|].
      rewrite Hf1 in He2.
      eapply Forall_impl; [|exact He2].
      intros e. apply delta_extends_longer.
Qed.

End Accumulation.

(** X9. The read loop of the Ollama stream never fails on account of a
    line: it ends abnormally only with the failure of a read.  The text it
    accumulates only grows at its end, and every delta frame it sends
    carries the Document of a text that begins with the text accumulated
    when the loop started. *)
Theorem X9_ollama_accumulator_grows {engine : JSEngine} (st : Accumulator)
  (reader : ReadableBody) :
  (forall st', outcome (read_loop ollama_line st reader) = inr st' ->
               exists suffix, fullContent st' = fullContent st ++ suffix)
  /\ (forall e, outcome (read_loop ollama_line st reader) = inl e <->
                read_failure reader = Some e)
  /\ Forall (delta_extends (fullContent st))
            (effects (read_loop ollama_line st reader)).
Proof.
  rewrite read_loop_lines.
  destruct (for_each_ollama_grows (decoded_lines (chunks reader)) st)
    as (st1 & suffix & Ho & Hf & He).
  rewrite outcome_bind, effects_bind, Ho. repeat split.
  - intros st' H. destruct (read_failure reader); [discriminate|].
    injection H as <-. now exists suffix.
  - intros H. destruct (read_failure reader); [|discriminate].
    now injection H as ->.
  - intros H. now rewrite H.
  - apply Forall_app. split; [exact He|].
    destruct (read_failure reader); constructor.
Qed.

Lemma X9_ollama_accumulator_grows_witness :
  outcome (@read_loop Reference.engine Accumulator ollama_line
             {| fullContent := js "Say: "; currentFormattedContent := [] |}
             Scenarios.scenario_D_body)
  = inr {| fullContent := js "Say: Hello";
           currentFormattedContent := [(0%N, js "Say: Hello")] |}
  /\ exists suffix, js "Say: Hello" = js "Say: " ++ suffix.
Proof.
  split; [reflexivity|].
  exact (proj1 (@X9_ollama_accumulator_grows Reference.engine
                  {| fullContent := js "Say: ";
                     currentFormattedContent := [] |}
                  Scenarios.scenario_D_body)
               {| fullContent := js "Say: Hello";
                  currentFormattedContent := [(0%N, js "Say: Hello")] |}
               eq_refl).
Defined.

(** ** Streaming calls *)

Section StreamFacts.

Context {engine : JSEngine}.

Lemma lmstudio_stream_returns (W : World) (base model : jsstring)
  (msgs : list WireMessage) (config : ProviderConfig) :
  outcome (LMStudioProvider_streamChat W base model msgs config) = inr tt.
Proof.
  unfold LMStudioProvider_streamChat.
  rewrite outcome_try_catch.
  destruct (outcome _) as [e|[]]; reflexivity.
Qed.

Lemma llama_stream_returns (W : World) (base model key : jsstring)
  (msgs : list WireMessage) (config : ProviderConfig) :
  outcome (LlamaProvider_streamChat W base model key msgs config) = inr tt.
Proof.
  unfold LlamaProvider_streamChat.
  rewrite outcome_try_catch.
  destruct (outcome _) as [e|[]]; reflexivity.
Qed.

Lemma requests_then_ret {A B : Type} (m : M A) (f : A -> B) :
  requests (effects (bind m (fun a => ret (f a)))) = requests (effects m).
Proof. now rewrite effects_then_ret'. Qed.

End StreamFacts.

(** X10. A call that asks for streaming never raises once the adapter's
    credential check has passed: on the Ollama, Ollama Cloud, LM Studio
    and Llama adapters it returns a stream, and every failure of the
    upstream is delivered inside that stream. *)
Theorem X10_streaming_call_returns_stream {engine : JSEngine}
  (continuing : bool) (p : ProviderType) (W : World) (request : ChatRequest)
  (config : ProviderConfig) :
  wants_stream request = true ->
  p <> v0 ->
  checks_credential p && missing (apiKey config) = false ->
  outcome (invoke continuing p W request config) = inr ReadableStream.
Proof.
  intros Hs Hp Hkey.
  destruct p; [congruence| | | |]; destruct continuing;
    cbn [invoke adapter createChat continueChat OllamaProvider
         OllamaCloudProvider LMStudioProvider LlamaProvider];
    unfold OllamaCloudProvider_continueChat, OllamaCloudProvider_createChat,
      OllamaProvider_continueChat, OllamaProvider_createChat,
      LMStudioProvider_continueChat, LMStudioProvider_createChat,
      LlamaProvider_continueChat, LlamaProvider_createChat;
    cbn [checks_credential andb cloudConfig apiKey] in *;
    try rewrite Hkey; try rewrite Hs;
    try (unfold missing in Hkey;
         destruct (apiKey config) as [key|]; [|discriminate];
         rewrite Hkey);
    rewrite outcome_bind,
      ?ollama_stream_returns, ?lmstudio_stream_returns, ?llama_stream_returns;
    reflexivity.
Qed.

Lemma X10_streaming_call_returns_stream_witness :
  outcome (invoke false llama (Scenarios.world (inl (Failure (js "fetch failed"))))
             (Scenarios.ask (js "hi") true None)
             (Scenarios.config (Some (js "key"))))
  = inr ReadableStream.
Proof.
  apply (@X10_streaming_call_returns_stream Reference.engine false llama
           (Scenarios.world (inl (Failure (js "fetch failed"))))
           (Scenarios.ask (js "hi") true None)
           (Scenarios.config (Some (js "key"))));
    [reflexivity | discriminate | reflexivity].
Defined.

(** X11. A chat call makes at most one upstream request and never repeats
    it: none on the v0 adapter and when the credential check refuses, and
    otherwise exactly one, a POST to the resolved target that carries the
    resolved model, the turns of the call and a [stream] flag equal to the
    request's [streaming] member, whether the upstream then fails or not. *)
Theorem X11_one_request_per_call {engine : JSEngine} (continuing : bool)
  (p : ProviderType) (W : World) (request : ChatRequest)
  (config : ProviderConfig) :
  requests (effects (invoke continuing p W request config))
  = if checks_credential p && missing (apiKey config) then []
    else match chat_request p continuing request config with
         | Some req => [req]
         | None => []
         end.
Proof.
  destruct p; destruct continuing;
    cbn [invoke adapter createChat continueChat V0Provider OllamaProvider
         OllamaCloudProvider LMStudioProvider LlamaProvider
         checks_credential andb chat_request turns];
    unfold V0Provider_continueChat, V0Provider_createChat, call,
      OllamaCloudProvider_continueChat, OllamaCloudProvider_createChat,
      OllamaProvider_continueChat, OllamaProvider_createChat,
      LMStudioProvider_continueChat, LMStudioProvider_createChat,
      LlamaProvider_continueChat, LlamaProvider_createChat,
      ollama_call_request;
    cbn [cloudConfig apiKey turns];
    try (destruct (given (chatId request)); [|reflexivity]);
    try (rewrite effects_bind; cbn [effects fst outcome snd];
         destruct (sdk W _ _); reflexivity);
    try (destruct (missing (apiKey config)); [reflexivity|]);
    try (unfold missing; destruct (apiKey config) as [key|]; [|reflexivity];
         destruct (truthy_string key); cbn [negb]; [|reflexivity]);
    (destruct (wants_stream request);
     rewrite ?effects_then_ret, ?effects_then_ret',
       ?ollama_stream_requests, ?ollama_sync_requests,
       ?lmstudio_stream_requests, ?lmstudio_sync_requests,
       ?llama_stream_requests, ?llama_sync_requests; reflexivity).
Qed.

(** X12. The failures of an Ollama stream.  The metadata frame is sent
    before the request; a rejected request, a non-success status (its
    status, status text and body text quoted in the error) and a missing
    response body each give one [Streaming error:] diagnostic and the error
    on the stream, and no [[DONE]] frame; a read that fails after some
    chunks leaves the frames of the complete lines already read in place
    before the error. *)
Theorem X12_ollama_stream_failures {engine : JSEngine} (W : World)
  (base model : jsstring) (msgs : list WireMessage) (config : ProviderConfig) :
  let req := ollama_chat_request base model msgs config true in
  let opening :=
    [Enqueue (MetadataFrame (new_chat_id W (js "ollama")) (Date_toISOString W));
     Fetch req] in
  let failing e := [ConsoleError (js "Streaming error:") e; ErrorStream e] in
  (forall e,
      upstream W req = inl e ->
      effects (OllamaProvider_streamChat W base model msgs config)
      = opening ++ failing e)
  /\ (forall response errorText,
         upstream W req = inr response ->
         ok response = false ->
         text response = inr errorText ->
         effects (OllamaProvider_streamChat W base model msgs config)
         = opening ++ failing (ollama_api_error response errorText))
  /\ (forall response,
         upstream W req = inr response ->
         ok response = true ->
         response_body response = None ->
         effects (OllamaProvider_streamChat W base model msgs config)
         = opening ++ failing (Error (js "No response body")))
  /\ (forall response reader e,
         upstream W req = inr response ->
         ok response = true ->
         response_body response = Some reader ->
         read_failure reader = Some e ->
         effects (OllamaProvider_streamChat W base model msgs config)
         = opening
           ++ effects (for_each ollama_line
                         {| fullContent := []; currentFormattedContent := [] |}
                         (decoded_lines (chunks reader)))
           ++ failing e).
Proof.
  intros req opening failing. subst req opening failing. repeat split.
  - intros e Hup. unfold OllamaProvider_streamChat. run. now rewrite Hup.
  - intros response errorText Hup Hok Htext.
    unfold OllamaProvider_streamChat. run. rewrite Hup. run.
    rewrite Hok. cbn [negb]. run. now rewrite Htext.
  - intros response Hup Hok Hbody.
    unfold OllamaProvider_streamChat. run. rewrite Hup. run.
    rewrite Hok. cbn [negb]. run. unfold getReader. now rewrite Hbody.
  - intros response reader e Hup Hok Hbody Hfail.
    unfold OllamaProvider_streamChat. run. rewrite Hup. run.
    rewrite Hok. cbn [negb]. run. unfold getReader. rewrite Hbody. run.
    rewrite read_loop_lines, Hfail.
    destruct (for_each_ollama_grows (decoded_lines (chunks reader))
                {| fullContent := []; currentFormattedContent := [] |})
      as (st1 & suffix & Ho & _ & _).
    destruct (for_each ollama_line _ _) as [t r].
    cbn [outcome snd] in Ho. subst r. run.
    now rewrite app_nil_r.
Qed.

Lemma X12_ollama_stream_failures_witness :
  effects (OllamaProvider_streamChat
             (Scenarios.world (inl (Failure (js "fetch failed"))))
             (js "http://localhost:11434") (js "llama3.2")
             [user_turn (js "hi")] (Scenarios.config None))
  = [Enqueue (MetadataFrame (js "ollama-1700000000000-82mvyr")
                            (js "2023-11-14T22:13:20.000Z"));
     Fetch (ollama_chat_request (js "http://localhost:11434") (js "llama3.2")
              [user_turn (js "hi")] (Scenarios.config None) true);
     ConsoleError (js "Streaming error:") (Failure (js "fetch failed"));
     ErrorStream (Failure (js "fetch failed"))].
Proof.
  exact (proj1 (@X12_ollama_stream_failures Reference.engine
                  (Scenarios.world (inl (Failure (js "fetch failed"))))
                  (js "http://localhost:11434") (js "llama3.2")
                  [user_turn (js "hi")] (Scenarios.config None))
               (Failure (js "fetch failed")) eq_refl).
Defined.

(** X13. A synchronous chat call whose upstream answers with a non-success
    status raises after its one request and returns nothing: the Ollama
    and Llama adapters quote the status, the status text and the body text
    in the error, the LM Studio adapter the status text alone. *)
Theorem X13_sync_error_status {engine : JSEngine} (W : World)
  (base model key : jsstring) (msgs : list WireMessage)
  (config : ProviderConfig) (response : Response) :
  ok response = false ->
  (forall errorText,
      upstream W (ollama_chat_request base model msgs config false)
      = inr response ->
      text response = inr errorText ->
      OllamaProvider_syncChat W base model msgs config
      = ([Fetch (ollama_chat_request base model msgs config false)],
         inl (Error (js "Ollama API error: " ++ decimal (status response)
                     ++ js " " ++ statusText response ++ js " - "
                     ++ errorText))))
  /\ (upstream W (lmstudio_chat_request base model msgs config false)
      = inr response ->
      LMStudioProvider_syncChat W base model msgs config
      = ([Fetch (lmstudio_chat_request base model msgs config false)],
         inl (Error (js "LM Studio API error: " ++ statusText response))))
  /\ (forall errorText,
         upstream W (llama_chat_request base model key msgs config false)
         = inr response ->
         text response = inr errorText ->
         LlamaProvider_syncChat W base model key msgs config
         = ([Fetch (llama_chat_request base model key msgs config false)],
            inl (Error (js "Llama API error: " ++ decimal (status response)
                        ++ js " " ++ statusText response ++ js " - "
                        ++ errorText)))).
Proof.
  intros Hok. repeat split.
  - intros errorText Hup Htext. unfold OllamaProvider_syncChat. run.
    rewrite Hup. run. rewrite Hok. cbn [negb]. run. now rewrite Htext.
  - intros Hup. unfold LMStudioProvider_syncChat. run.
    rewrite Hup. run. now rewrite Hok.
  - intros errorText Hup Htext. unfold LlamaProvider_syncChat. run.
    rewrite Hup. run. rewrite Hok. cbn [negb]. run. now rewrite Htext.
Qed.

Lemma X13_sync_error_status_witness :
  ok (Scenarios.answered false 500 (js "Internal Server Error")
        (Reference.quoted "{'error':'model registry unavailable'}"))
  = false
  /\ LMStudioProvider_syncChat Scenarios.models_unavailable
       (js "http://localhost:1234") (js "local-model") [user_turn (js "hi")]
       (Scenarios.config None)
     = ([Fetch (lmstudio_chat_request (js "http://localhost:1234")
                  (js "local-model") [user_turn (js "hi")]
                  (Scenarios.config None) false)],
        inl (Error (js "LM Studio API error: Internal Server Error"))).
Proof.
  split; [reflexivity|].
  exact (proj1 (proj2 (@X13_sync_error_status Reference.engine
                         Scenarios.models_unavailable
                         (js "http://localhost:1234") (js "local-model") []
                         [user_turn (js "hi")] (Scenarios.config None)
                         (Scenarios.answered false 500
                            (js "Internal Server Error")
                            (Reference.quoted
                               "{'error':'model registry unavailable'}"))
                         eq_refl))
               eq_refl).
Defined.

(** ** Framing and decoding *)

Lemma split_from_pieces_unbroken (s : jsstring) :
  forall cur : jsstring,
    unbroken cur = true ->
    Forall (fun piece => unbroken piece = true) (split_from NL 0 cur s).
Proof.
  induction s as [|c s IH]; intros cur H.
  - repeat constructor. exact H.
  - cbn [split_from]. rewrite startsWith_NL.
    destruct (c =? LF)%N eqn:Hc.
    + constructor; [exact H|]. now apply IH.
    + apply IH. unfold unbroken. rewrite forallb_app. fold (unbroken cur).
      rewrite H. simpl. now rewrite Hc.
Qed.

Lemma Forall_removelast {A : Type} (P : A -> Prop) (l : list A) :
  Forall P l -> Forall P (removelast l).
Proof.
  induction 1 as [|x l Hx Hl IH]; [constructor|].
  destruct l as [|y l]; [constructor|].
  cbn [removelast]. constructor; [exact Hx | exact IH].
Qed.

(** X14. The lines a stream's read loop hands to its line handler are the
    segments of the decoded text that a line feed ends, in order and free
    of line feeds; the fragment after the last line feed is never handed
    over, not even when the stream ends, so a body without a line feed
    yields no line. *)
Theorem X14_lines_are_terminated_segments (chunks : list (list byte)) :
  let text := decoded_text TextDecoder.create (concat chunks) in
  decoded_lines chunks ++ [last (split NL text) []] = split NL text
  /\ Forall (fun line => unbroken line = true) (decoded_lines chunks)
  /\ (unbroken text = true -> decoded_lines chunks = []).
Proof.
  intros text. subst text. rewrite decoded_lines_concat. repeat split.
  - symmetry. apply app_removelast_last. apply split_from_not_nil.
  - apply Forall_removelast. now apply split_from_pieces_unbroken.
  - intros H. unfold split. now rewrite split_from_unbroken.
Qed.

Lemma X14_lines_are_terminated_segments_witness :
  unbroken (decoded_text TextDecoder.create
              (concat [Reference.bytes "{}"; Reference.bytes " "]))
  = true
  /\ decoded_lines [Reference.bytes "{}"; Reference.bytes " "] = [].
Proof.
  split; [reflexivity|].
  exact (proj2 (proj2 (X14_lines_are_terminated_segments
                         [Reference.bytes "{}"; Reference.bytes " "]))
               eq_refl).
Defined.



